(** * clearanceAI: risk assessment and order approval

    A shallow embedding of the decision logic found in the repository:
    the canned assessment generator and the built-in datasets of
    [src/lib/mockData.ts], the form gates and approval handlers of the
    pages [NewAssessment.tsx] and [CreateOrder.tsx], and the proxy
    routes of [backend/api].  The scoring engine behind the proxy routes
    is not part of the sources at hand; where a property is about it, it
    is modelled from the specification and marked as such. *)

From Stdlib Require Import ZArith Lia Bool Ascii String List.
From stdpp Require Import base strings gmap list.

Local Open Scope string_scope.
Local Open Scope Z_scope.

(** ** JavaScript string primitives

    A string is a sequence of code units; the model keeps the code units
    0..255 (the Latin-1 block), which covers every literal of the
    sources.  On that block [String.prototype.toLowerCase] maps A-Z and
    the accented capitals U+00C0..U+00DE (except the multiplication sign
    U+00D7) to the code unit 32 above, and leaves the rest alone. *)
Module Js.

Definition is_upper_code (n : nat) : bool :=
  ((65 <=? n)%nat && (n <=? 90)%nat)
  || ((192 <=? n)%nat && (n <=? 222)%nat && negb (n =? 215)%nat).

Definition lower_code (n : nat) : nat :=
  if is_upper_code n then (n + 32)%nat else n.

Definition toLowerChar (c : ascii) : ascii :=
  ascii_of_nat (lower_code (nat_of_ascii c)).

Fixpoint toLowerCase (s : string) : string :=
  match s with
  | EmptyString => EmptyString
  | String c r => String (toLowerChar c) (toLowerCase r)
  end.

(** The class [\s] of a regular expression, restricted to the block:
    TAB, LF, VT, FF, CR, SPACE and NO-BREAK SPACE. *)
Definition is_space_code (n : nat) : bool :=
  ((9 <=? n)%nat && (n <=? 13)%nat) || (n =? 32)%nat || (n =? 160)%nat.

Definition is_space (c : ascii) : bool := is_space_code (nat_of_ascii c).

(** [s.replace(/\s+/g, '-')]: every maximal run of white space becomes
    one hyphen.  [in_run] records that the previous code unit was white
    space, whose hyphen has been written already. *)
Fixpoint replace_runs (in_run : bool) (s : string) : string :=
  match s with
  | EmptyString => EmptyString
  | String c r =>
      if is_space c
      then (if in_run then replace_runs true r
            else String "-"%char (replace_runs true r))
      else String c (replace_runs false r)
  end.

Definition replace_whitespace_with_hyphen (s : string) : string :=
  replace_runs false s.

(** Truthiness of a string value: only the empty string is falsy. *)
Definition truthy (s : string) : bool :=
  match s with EmptyString => false | String _ _ => true end.

(** A template literal prints a missing ([undefined]) part as the word
    [undefined]. *)
Definition template_part (o : option string) : string :=
  match o with Some s => s | None => "undefined" end.

End Js.

(** ** Data model of [mockData.ts] *)

Inductive RiskLevel := high | medium | low.

(** The status of a shipment record; ['approved'] and ['rejected'] are
    written [approved_shipment] and [rejected_shipment] to keep them
    apart from the order states of the same name. *)
Inductive ShipmentStatus := pending | approved_shipment | rejected_shipment | under_review.

Inductive EntityType := shipper | importer | manufacturer.

Inductive Sentiment := negative | neutral | positive.

#[global] Instance RiskLevel_eq_dec : EqDecision RiskLevel.
Proof. solve_decision. Defined.

#[global] Instance Sentiment_eq_dec : EqDecision Sentiment.
Proof. solve_decision. Defined.

#[global] Instance EntityType_eq_dec : EqDecision EntityType.
Proof. solve_decision. Defined.

Module ShipmentRecord.
Record t := mk {
  id : string;
  date : string;
  shipper : string;
  importer : string;
  commodity : string;
  origin : string;
  value : Z;
  riskLevel : RiskLevel;
  riskScore : Z;
  flags : list string;
  status : ShipmentStatus
}.
End ShipmentRecord.

Record NewsItem := mkNews {
  news_date : string;
  news_source : string;
  headline : string;
  sentiment : Sentiment;
  excerpt : string
}.

Record TradingPattern := mkPattern {
  pattern_commodity : string;
  frequency : Z;
  lastShipment : string;
  normalOrigins : list string
}.

Record BlacklistStatus := mkBlacklist {
  list60B : bool;
  approvedManufacturer : bool;
  otherFlags : list string
}.

Module EntityProfile.
Record t := mk {
  id : string;
  name : string;
  type : EntityType;
  riskLevel : RiskLevel;
  riskScore : Z;
  country : string;
  registrationDate : string;
  lastActivity : string;
  blacklistStatus : BlacklistStatus;
  newsItems : list NewsItem;
  tradingPatterns : list TradingPattern
}.
End EntityProfile.

(** The value type of the [responses] table of [generateAIAssessment].
    [entityChecks] is an object literal; an association list keeps its
    keys in the order of the source. *)
Module Assessment.
Record t := mk {
  riskLevel : RiskLevel;
  riskScore : Z;
  flags : list string;
  entityChecks : list (string * string);
  recommendations : list string;
  patternAnalysis : string;
  aiInsights : string
}.
End Assessment.

(** ** The built-in datasets [mockShipments] and [mockEntities] *)

Definition SHP_2024_001 : ShipmentRecord.t :=
  {| ShipmentRecord.id := "SHP-2024-001";
     ShipmentRecord.date := "2024-11-15";
     ShipmentRecord.shipper := "Global Trade Corp";
     ShipmentRecord.importer := "Mexico Imports SA";
     ShipmentRecord.commodity := "Soccer Balls";
     ShipmentRecord.origin := "China";
     ShipmentRecord.value := 45000;
     ShipmentRecord.riskLevel := high;
     ShipmentRecord.riskScore := 87;
     ShipmentRecord.flags := ["Commodity Origin Mismatch"; "Unusual Route"];
     ShipmentRecord.status := under_review |}.

Definition SHP_2024_002 : ShipmentRecord.t :=
  {| ShipmentRecord.id := "SHP-2024-002";
     ShipmentRecord.date := "2024-11-14";
     ShipmentRecord.shipper := "Pacific Logistics Ltd";
     ShipmentRecord.importer := "Automotive Parts MX";
     ShipmentRecord.commodity := "Auto Parts";
     ShipmentRecord.origin := "Japan";
     ShipmentRecord.value := 125000;
     ShipmentRecord.riskLevel := low;
     ShipmentRecord.riskScore := 15;
     ShipmentRecord.flags := [];
     ShipmentRecord.status := approved_shipment |}.

Definition SHP_2024_003 : ShipmentRecord.t :=
  {| ShipmentRecord.id := "SHP-2024-003";
     ShipmentRecord.date := "2024-11-14";
     ShipmentRecord.shipper := "Eastern Trading Co";
     ShipmentRecord.importer := "TechnoMex Solutions";
     ShipmentRecord.commodity := "Electronics";
     ShipmentRecord.origin := "Taiwan";
     ShipmentRecord.value := 89000;
     ShipmentRecord.riskLevel := low;
     ShipmentRecord.riskScore := 22;
     ShipmentRecord.flags := [];
     ShipmentRecord.status := approved_shipment |}.

Definition SHP_2024_004 : ShipmentRecord.t :=
  {| ShipmentRecord.id := "SHP-2024-004";
     ShipmentRecord.date := "2024-11-13";
     ShipmentRecord.shipper := "Flores International";
     ShipmentRecord.importer := "Decoraciones Mexico";
     ShipmentRecord.commodity := "Hibiscus Flowers";
     ShipmentRecord.origin := "Colombia";
     ShipmentRecord.value := 12000;
     ShipmentRecord.riskLevel := medium;
     ShipmentRecord.riskScore := 58;
     ShipmentRecord.flags := ["Origin Anomaly - Expected Nigeria"];
     ShipmentRecord.status := under_review |}.

Definition SHP_2024_005 : ShipmentRecord.t :=
  {| ShipmentRecord.id := "SHP-2024-005";
     ShipmentRecord.date := "2024-11-13";
     ShipmentRecord.shipper := "Textiles Global";
     ShipmentRecord.importer := "Fashion MX";
     ShipmentRecord.commodity := "Textiles";
     ShipmentRecord.origin := "India";
     ShipmentRecord.value := 67000;
     ShipmentRecord.riskLevel := low;
     ShipmentRecord.riskScore := 18;
     ShipmentRecord.flags := [];
     ShipmentRecord.status := approved_shipment |}.

Definition SHP_2024_006 : ShipmentRecord.t :=
  {| ShipmentRecord.id := "SHP-2024-006";
     ShipmentRecord.date := "2024-11-12";
     ShipmentRecord.shipper := "Rapid Shift Logistics";
     ShipmentRecord.importer := "Juguetes Mexico";
     ShipmentRecord.commodity := "Toys";
     ShipmentRecord.origin := "Vietnam";
     ShipmentRecord.value := 34000;
     ShipmentRecord.riskLevel := medium;
     ShipmentRecord.riskScore := 64;
     ShipmentRecord.flags := ["Shipper on 60B List"; "Unusual Commodity Change"];
     ShipmentRecord.status := rejected_shipment |}.

Definition SHP_2024_007 : ShipmentRecord.t :=
  {| ShipmentRecord.id := "SHP-2024-007";
     ShipmentRecord.date := "2024-11-12";
     ShipmentRecord.shipper := "Euro Shipping AG";
     ShipmentRecord.importer := "Maquinaria Industrial MX";
     ShipmentRecord.commodity := "Machinery";
     ShipmentRecord.origin := "Germany";
     ShipmentRecord.value := 245000;
     ShipmentRecord.riskLevel := low;
     ShipmentRecord.riskScore := 12;
     ShipmentRecord.flags := [];
     ShipmentRecord.status := approved_shipment |}.

Definition SHP_2024_008 : ShipmentRecord.t :=
  {| ShipmentRecord.id := "SHP-2024-008";
     ShipmentRecord.date := "2024-11-11";
     ShipmentRecord.shipper := "Asia Commerce Ltd";
     ShipmentRecord.importer := "ElectroMex SA";
     ShipmentRecord.commodity := "Consumer Electronics";
     ShipmentRecord.origin := "South Korea";
     ShipmentRecord.value := 98000;
     ShipmentRecord.riskLevel := low;
     ShipmentRecord.riskScore := 20;
     ShipmentRecord.flags := [];
     ShipmentRecord.status := approved_shipment |}.

Definition mockShipments : list ShipmentRecord.t :=
  [SHP_2024_001; SHP_2024_002; SHP_2024_003; SHP_2024_004; SHP_2024_005; SHP_2024_006; SHP_2024_007; SHP_2024_008].

Definition ENT_001 : EntityProfile.t :=
  {| EntityProfile.id := "ENT-001";
     EntityProfile.name := "Global Trade Corp";
     EntityProfile.type := shipper;
     EntityProfile.riskLevel := high;
     EntityProfile.riskScore := 87;
     EntityProfile.country := "China";
     EntityProfile.registrationDate := "2018-03-15";
     EntityProfile.lastActivity := "2024-11-15";
     EntityProfile.blacklistStatus :=
       {| list60B := false;
          approvedManufacturer := true;
          otherFlags := ["Previous customs violations"] |};
     EntityProfile.newsItems :=
       [
        mkNews "2024-09-12" "Trade Compliance News"
          "Global Trade Corp faces customs investigation in Brazil"
          negative
          "Authorities have launched an investigation into alleged documentation irregularities...";
        mkNews "2024-06-05" "Business Wire"
          "Company expands operations to Southeast Asia"
          neutral
          "Global Trade Corp announces new distribution centers in Thailand and Vietnam..." ];
     EntityProfile.tradingPatterns :=
       [
        mkPattern "Auto Parts" 45 "2024-10-28" ["China"; "Japan"];
        mkPattern "Soccer Balls" 2 "2024-11-15" ["Pakistan"] ] |}.

Definition ENT_002 : EntityProfile.t :=
  {| EntityProfile.id := "ENT-002";
     EntityProfile.name := "Rapid Shift Logistics";
     EntityProfile.type := shipper;
     EntityProfile.riskLevel := high;
     EntityProfile.riskScore := 92;
     EntityProfile.country := "Panama";
     EntityProfile.registrationDate := "2020-08-22";
     EntityProfile.lastActivity := "2024-11-12";
     EntityProfile.blacklistStatus :=
       {| list60B := true;
          approvedManufacturer := false;
          otherFlags := ["Tax evasion investigation"; "Shell company indicators"] |};
     EntityProfile.newsItems :=
       [
        mkNews "2024-10-18" "Latin America Financial Times"
          "Panama authorities investigate Rapid Shift for tax fraud"
          negative
          "The company is under investigation for alleged tax evasion schemes involving offshore accounts...";
        mkNews "2024-08-02" "Global Trade Alert"
          "Rapid Shift linked to suspicious cargo incidents"
          negative
          "Multiple customs agencies report irregularities in shipments handled by the logistics firm..." ];
     EntityProfile.tradingPatterns :=
       [
        mkPattern "Toys" 8 "2024-11-12" ["China"; "Vietnam"];
        mkPattern "Electronics" 3 "2024-09-20" ["China"] ] |}.

Definition ENT_003 : EntityProfile.t :=
  {| EntityProfile.id := "ENT-003";
     EntityProfile.name := "Pacific Logistics Ltd";
     EntityProfile.type := shipper;
     EntityProfile.riskLevel := low;
     EntityProfile.riskScore := 15;
     EntityProfile.country := "Japan";
     EntityProfile.registrationDate := "2010-05-10";
     EntityProfile.lastActivity := "2024-11-14";
     EntityProfile.blacklistStatus :=
       {| list60B := false;
          approvedManufacturer := true;
          otherFlags := [] |};
     EntityProfile.newsItems :=
       [
        mkNews "2024-10-05" "Asian Business Review"
          "Pacific Logistics wins excellence award for compliance"
          positive
          "The company has been recognized for its outstanding track record in international trade compliance...";
        mkNews "2024-07-15" "Logistics Today"
          "Pacific Logistics expands green shipping initiatives"
          positive
          "New environmentally-friendly fleet reduces carbon emissions by 30%..." ];
     EntityProfile.tradingPatterns :=
       [
        mkPattern "Auto Parts" 120 "2024-11-14" ["Japan"; "South Korea"];
        mkPattern "Machinery" 45 "2024-11-10" ["Japan"; "Germany"] ] |}.

Definition ENT_004 : EntityProfile.t :=
  {| EntityProfile.id := "ENT-004";
     EntityProfile.name := "Flores International";
     EntityProfile.type := shipper;
     EntityProfile.riskLevel := medium;
     EntityProfile.riskScore := 58;
     EntityProfile.country := "Colombia";
     EntityProfile.registrationDate := "2015-11-03";
     EntityProfile.lastActivity := "2024-11-13";
     EntityProfile.blacklistStatus :=
       {| list60B := false;
          approvedManufacturer := true;
          otherFlags := ["Minor documentation issues"] |};
     EntityProfile.newsItems :=
       [
        mkNews "2024-08-20" "Agriculture Trade News"
          "Flores International expands flower export operations"
          positive
          "Company increases production capacity to meet growing international demand..." ];
     EntityProfile.tradingPatterns :=
       [
        mkPattern "Hibiscus Flowers" 24 "2024-11-13" ["Colombia"; "Ecuador"];
        mkPattern "Roses" 56 "2024-11-12" ["Colombia"] ] |}.

Definition mockEntities : list EntityProfile.t :=
  [ENT_001; ENT_002; ENT_003; ENT_004].

(** ** [generateAIAssessment]

    The two entries of the table [responses], a JavaScript object used
    as a map from a computed key to a canned assessment. *)

Definition soccer_balls_china : Assessment.t :=
  {| Assessment.riskLevel := high;
     Assessment.riskScore := 87;
     Assessment.flags :=
       ["Commodity Origin Mismatch - 70% of soccer balls are manufactured in Pakistan";
        "Unusual shipping route detected";
        "Price point below market average"];
     Assessment.entityChecks :=
       [("shipper", "Clean - No blacklist entries");
        ("importer", "Warning - Recently changed business address");
        ("manufacturer", "Not on approved manufacturer list for this commodity")];
     Assessment.recommendations :=
       ["Request additional documentation on manufacturing origin";
        "Verify importer's business registration and address change";
        "Consider physical inspection of cargo";
        "Require manufacturer certification"];
     Assessment.patternAnalysis :=
       "Shipper typically handles auto parts (95% of shipments). This commodity represents significant deviation from normal trading pattern.";
     Assessment.aiInsights :=
       "This shipment exhibits multiple red flags that warrant careful review. The combination of commodity-origin mismatch, unusual shipper behavior, and lack of manufacturer certification suggests elevated risk." |}.

Definition default_response : Assessment.t :=
  {| Assessment.riskLevel := medium;
     Assessment.riskScore := 45;
     Assessment.flags :=
       ["Standard commodity routing";
        "All parties cleared in basic checks"];
     Assessment.entityChecks :=
       [("shipper", "Clean - No issues found");
        ("importer", "Clean - No issues found");
        ("manufacturer", "Verified")];
     Assessment.recommendations :=
       ["Proceed with standard documentation review";
        "No additional inspection required"];
     Assessment.patternAnalysis :=
       "Trading pattern consistent with historical data.";
     Assessment.aiInsights :=
       "This shipment appears standard with no significant risk indicators detected." |}.

Definition responses : gmap string Assessment.t :=
  {[ "soccer-balls-china" := soccer_balls_china;
     "default" := default_response ]}.

(** [shipmentData] is a [Record<string, string>]: reading a field that
    was not supplied gives [undefined], here [None].  The optional chain
    [x?.toLowerCase().replace(..)] skips both calls on [undefined]. *)
Definition commodity_part (shipmentData : gmap string string) : option string :=
  (fun c => Js.replace_whitespace_with_hyphen (Js.toLowerCase c))
    <$> shipmentData !! "commodity".

Definition origin_part (shipmentData : gmap string string) : option string :=
  Js.toLowerCase <$> shipmentData !! "origin".

Definition key (shipmentData : gmap string string) : string :=
  Js.template_part (commodity_part shipmentData)
  +:+ "-" +:+ Js.template_part (origin_part shipmentData).

(** [responses[key] || responses['default']]: an entry is an object and
    so truthy; the right operand is taken exactly when the key is
    absent.  Every key holds a hyphen, so no inherited property of the
    object (none of which has one) can answer the lookup. *)
Definition generateAIAssessment (shipmentData : gmap string string) : Assessment.t :=
  match responses !! key shipmentData with
  | Some r => r
  | None => default default_response (responses !! "default")
  end.

(** Object identity.  The literal [responses] sits inside the function
    body, so every call allocates two new entry objects and returns a
    reference to one of them.  [Heap] maps references to the objects
    they denote; the caller may change any object it holds between two
    calls. *)
Definition allocate (h : gmap nat Assessment.t) (a : Assessment.t)
  : nat * gmap nat Assessment.t :=
  let l := fresh (dom h) in (l, <[l := a]> h).

Definition generateAIAssessment_call
    (h : gmap nat Assessment.t) (shipmentData : gmap string string)
  : nat * gmap nat Assessment.t :=
  let '(l_soccer, h1) := allocate h soccer_balls_china in
  let '(l_default, h2) := allocate h1 default_response in
  let table : gmap string nat :=
    {[ "soccer-balls-china" := l_soccer; "default" := l_default ]} in
  match table !! key shipmentData with
  | Some l => (l, h2)
  | None => (default l_default (table !! "default"), h2)
  end.

(** The reference a call returns, and the heap it leaves. *)
Definition result_ref (r : nat * gmap nat Assessment.t) : nat := fst r.
Definition result_heap (r : nat * gmap nat Assessment.t) : gmap nat Assessment.t := snd r.

(** Completion of a call: a normal return, or a thrown error known by
    its name. *)
Inductive Completion (A : Type) :=
  | Returned (a : A)
  | Thrown (error_name : string).
Arguments Returned {A} a.
Arguments Thrown {A} error_name.

(** The body of [generateAIAssessment] has no [throw] and no operation
    that can fail on a [Record<string, string>]: it completes normally
    on every argument. *)
Definition generateAIAssessment_completion (shipmentData : gmap string string)
  : Completion Assessment.t :=
  Returned (generateAIAssessment shipmentData).

(** ** The page [NewAssessment.tsx] *)

Module NewAssessment.

Record FormData := mkForm {
  shipper : string;
  importer : string;
  manufacturer : string;
  commodity : string;
  origin : string;
  destination : string;
  value : string;
  weight : string;
  hsCode : string;
  notes : string
}.

(** [formData.shipper && formData.importer && formData.commodity &&
    formData.origin], read for its truthiness. *)
Definition isFormValid (formData : FormData) : bool :=
  Js.truthy (shipper formData) && Js.truthy (importer formData)
  && Js.truthy (commodity formData) && Js.truthy (origin formData).

(** The [disabled] attribute of the button that starts [handleAssess]. *)
Definition assess_disabled (formData : FormData) (isAnalyzing : bool) : bool :=
  negb (isFormValid formData) || isAnalyzing.

(** The state [formData] as the object it is.  [useState] starts it
    with every field present and empty. *)
Definition initialFormData : gmap string string :=
  list_to_map
    [("shipper", ""); ("importer", ""); ("manufacturer", ""); ("commodity", "");
     ("origin", ""); ("destination", ""); ("value", ""); ("weight", "");
     ("hsCode", ""); ("notes", "")].

(** [setFormData(prev => ({ ...prev, [field]: value }))]. *)
Definition handleInputChange (field value : string) (prev : gmap string string)
  : gmap string string :=
  <[field := value]> prev.

(** Reading a field of the object; a property that is not there reads
    [undefined], which is as falsy as the empty string. *)
Definition read (o : gmap string string) (field : string) : string :=
  default "" (o !! field).

Definition form_of (o : gmap string string) : FormData :=
  {| shipper := read o "shipper";
     importer := read o "importer";
     manufacturer := read o "manufacturer";
     commodity := read o "commodity";
     origin := read o "origin";
     destination := read o "destination";
     value := read o "value";
     weight := read o "weight";
     hsCode := read o "hsCode";
     notes := read o "notes" |}.

(** A value of the request body of [handleAssess]. *)
Inductive JsonValue (Num : Type) :=
  | JString (s : string)
  | JNumber (n : Num).
Arguments JString {Num} s.
Arguments JNumber {Num} n.

Section HandleAssess.

Variable Num : Type.                  (* the numbers of JavaScript *)
Variable parseFloat : string -> Num.

(** [x || undefined] and [x ? parseFloat(x) : undefined]. *)
Definition optional_string (x : string) : option (JsonValue Num) :=
  if Js.truthy x then Some (JString x) else None.

Definition optional_number (x : string) : option (JsonValue Num) :=
  if Js.truthy x then Some (JNumber (parseFloat x)) else None.

(** [JSON.stringify] leaves out a property whose value is [undefined]. *)
Definition with_property (k : string) (v : option (JsonValue Num))
    (o : gmap string (JsonValue Num)) : gmap string (JsonValue Num) :=
  match v with Some v => <[k := v]> o | None => o end.

(** The object [shipmentData] that [handleAssess] sends. *)
Definition shipmentData (formData : FormData) : gmap string (JsonValue Num) :=
  with_property "shipper" (Some (JString (shipper formData)))
  (with_property "importer" (Some (JString (importer formData)))
  (with_property "manufacturer" (optional_string (manufacturer formData))
  (with_property "commodity" (Some (JString (commodity formData)))
  (with_property "origin" (Some (JString (origin formData)))
  (with_property "destination" (optional_string (destination formData))
  (with_property "value" (optional_number (value formData))
  (with_property "weight" (optional_number (weight formData))
  (with_property "hsCode" (optional_string (hsCode formData))
  (with_property "notes" (optional_string (notes formData)) ∅))))))))).

(** The string-valued properties of a body. *)
Definition string_fields (o : gmap string (JsonValue Num)) : gmap string string :=
  omap (fun v => match v with JString s => Some s | JNumber _ => None end) o.

End HandleAssess.

End NewAssessment.

(** ** The proxy routes of [backend/api]

    [assessments.ts] and [orders.ts] share one shape: forward the parsed
    body to the Python service and hand its answer back.  What the
    service does with a request is its own business; the route sees one
    of three outcomes. *)
Section ProxyRoute.

Variable Body : Type.      (* a parsed request body *)
Variable Payload : Type.   (* a parsed answer of the service *)

Inductive UpstreamOutcome :=
  | upstream_ok (payload : Payload)                      (* [response.ok] *)
  | upstream_not_ok (status : Z) (errorText : string)    (* [!response.ok] *)
  | upstream_threw (message : string).                   (* caught by [catch] *)

Inductive RouteResponse :=
  | json_payload (status : Z) (payload : Payload)
  | json_error (status : Z) (error details : string).

Definition proxy_route (failure_label : string)
    (service : Body -> UpstreamOutcome) (body : Body) : RouteResponse :=
  match service body with
  | upstream_ok payload => json_payload 200 payload
  | upstream_not_ok status errorText => json_error status failure_label errorText
  | upstream_threw message => json_error 500 "Failed to connect to AI service" message
  end.

End ProxyRoute.

Arguments upstream_ok {Payload} payload.
Arguments upstream_not_ok {Payload} status errorText.
Arguments upstream_threw {Payload} message.
Arguments json_payload {Payload} status payload.
Arguments json_error {Payload} status error details.
Arguments proxy_route {Body Payload} failure_label service body.

Definition assess_route {Body Payload} := @proxy_route Body Payload "Assessment failed".
Definition orders_create_route {Body Payload} := @proxy_route Body Payload "Order pre-check failed".

(** ** What a page sees of a [fetch]

    The pages await [fetch], test [response.ok] and parse the body with
    [response.json()]; each of the three can end the [try] block. *)

(** A body that [response.json()] parsed, or the message of the error
    it threw. *)
Inductive Parsed (A : Type) :=
  | parsed (a : A)
  | unparsable (message : string).
Arguments parsed {A} a.
Arguments unparsable {A} message.

(** [fetch_rejected]: the promise of [fetch] rejected, with the message
    of the error if it was an [Error].  [response_ok]: a body of the
    expected type.  [response_not_ok]: an error body, of which the page
    reads the property [details]. *)
Inductive FetchOutcome (A : Type) :=
  | fetch_rejected (message : option string)
  | response_ok (body : Parsed A)
  | response_not_ok (body : Parsed (option string)).
Arguments fetch_rejected {A} message.
Arguments response_ok {A} body.
Arguments response_not_ok {A} body.

(** How the [try] block of a page ends: with the parsed result, or in
    [catch] with the text that the error toast shows.  A response that
    is not ok throws [new Error(error.details || fallback)]; the [catch]
    clause takes [error instanceof Error ? error.message : 'Unknown
    error occurred']. *)
Definition try_block {A} (fallback : string) (o : FetchOutcome A) : A + string :=
  match o with
  | fetch_rejected message => inr (default "Unknown error occurred" message)
  | response_ok (parsed result) => inl result
  | response_ok (unparsable message) => inr message
  | response_not_ok (parsed details) =>
      inr (match details with
           | Some d => if Js.truthy d then d else fallback
           | None => fallback
           end)
  | response_not_ok (unparsable message) => inr message
  end.

(** Whether the run gets past [await fetch], to the statement behind
    it. *)
Definition fetch_resolved {A} (o : FetchOutcome A) : bool :=
  match o with fetch_rejected _ => false | _ => true end.

(** [response.ok]: the status is in the range 200-299. *)
Definition status_ok (status : Z) : bool := (200 <=? status) && (status <=? 299).

(** What the page gets when the answer of a route arrives.  An error
    body under an ok status would be taken for a result; it has not the
    type of one, and the reading stops there. *)
Definition seen_by_page {A} (r : RouteResponse A) : option (FetchOutcome A) :=
  match r with
  | json_payload status payload =>
      Some (if status_ok status then response_ok (parsed payload)
            else response_not_ok (parsed None))
  | json_error status _ details =>
      if status_ok status then None
      else Some (response_not_ok (parsed (Some details)))
  end.

(** ** The page [CreateOrder.tsx] *)

Inductive ApprovalStatus := pending_approval | auto_approved | approved | rejected.

#[global] Instance ApprovalStatus_eq_dec : EqDecision ApprovalStatus.
Proof. solve_decision. Defined.

Module CreateOrder.

Record EntityRiskSummary := mkSummary {
  name : string;
  country : string;
  entity_type : string;
  risk_level : RiskLevel;
  risk_score : Z;
  is_blacklisted : bool;
  flags : list string;
  news_summary : option string
}.

Record OrderAssessmentResponse := mkResponse {
  order_id : string;
  overall_risk_level : RiskLevel;
  overall_risk_score : Z;
  requires_approval : bool;
  approval_status : ApprovalStatus;
  shipper_assessment : EntityRiskSummary;
  buyer_assessment : EntityRiskSummary;
  order_flags : list string;
  recommendations : list string;
  ai_summary : string
}.

Record FormData := mkForm {
  shipper_name : string;
  shipper_country : string;
  buyer_name : string;
  buyer_country : string;
  commodity : string;
  origin : string;
  value : string;
  order_reference : string
}.

(** The component state held by [useState]. *)
Record PageState := mkState {
  formData : FormData;
  isChecking : bool;
  checkStep : Z;
  assessment : option OrderAssessmentResponse
}.

Inductive ToastKind := toast_success | toast_error | toast_info | toast_warning.

Record Toast := mkToast {
  kind : ToastKind;
  title : string;
  description : string
}.

(** An event handler runs against the component state and may emit
    notifications. *)
Definition Handler (A : Type) : Type :=
  PageState -> Completion (A * PageState * list Toast).

Definition toast (k : ToastKind) (t d : string) : Handler unit :=
  fun st => Returned (tt, st, [mkToast k t d]).

Definition handleApprove : Handler unit :=
  toast toast_success "Order approved" "Order has been approved and can proceed".

Definition handleReject : Handler unit :=
  toast toast_error "Order rejected" "Order has been rejected".

Definition handleEscalate : Handler unit :=
  toast toast_info "Escalated to Legal"
        "Order has been sent to legal department for review".

(** The three buttons are rendered in the branch
    [assessment && (assessment.requires_approval ? .. : ..)]. *)
Definition approval_actions_rendered (st : PageState) : bool :=
  match assessment st with
  | Some a => requires_approval a
  | None => false
  end.

Definition isFormValid (f : FormData) : bool :=
  Js.truthy (shipper_name f) && Js.truthy (shipper_country f)
  && Js.truthy (buyer_name f) && Js.truthy (buyer_country f)
  && Js.truthy (commodity f) && Js.truthy (origin f).

(** The state [formData] as an object; the country of the buyer starts
    as Mexico. *)
Definition initialFormData : gmap string string :=
  list_to_map
    [("shipper_name", ""); ("shipper_country", ""); ("buyer_name", "");
     ("buyer_country", "Mexico"); ("commodity", ""); ("origin", "");
     ("value", ""); ("order_reference", "")].

(** [setFormData(prev => ({ ...prev, [field]: value }))]. *)
Definition handleInputChange (field value : string) (prev : gmap string string)
  : gmap string string :=
  <[field := value]> prev.

Definition read (o : gmap string string) (field : string) : string :=
  default "" (o !! field).

Definition form_of (o : gmap string string) : FormData :=
  {| shipper_name := read o "shipper_name";
     shipper_country := read o "shipper_country";
     buyer_name := read o "buyer_name";
     buyer_country := read o "buyer_country";
     commodity := read o "commodity";
     origin := read o "origin";
     value := read o "value";
     order_reference := read o "order_reference" |}.

(** The [disabled] attribute of the button that runs
    [handleCreateOrder]. *)
Definition create_disabled (st : PageState) : bool :=
  negb (isFormValid (formData st)) || isChecking st.

(** [handleCreateOrder] is asynchronous.  Besides the component state a
    run leaves timers behind: [intervals] counts the timers made by
    [setInterval] and not yet cleared. *)
Record Session := mkSession {
  page : PageState;
  intervals : nat
}.

(** The part before [await fetch]: three state updates and a new
    timer. *)
Definition begin (s : Session) : Session :=
  {| page := mkState (formData (page s)) true 1 None;
     intervals := S (intervals s) |}.

(** One firing of a timer: [setCheckStep(prev => Math.min(prev + 1, 3))]. *)
Definition tick (s : Session) : Session :=
  match intervals s with
  | O => s
  | S _ =>
      {| page := mkState (formData (page s)) (isChecking (page s))
                         (Z.min (checkStep (page s) + 1) 3) (assessment (page s));
         intervals := intervals s |}
  end.

Definition error_toast (description : string) : Toast :=
  mkToast toast_error "Pre-check failed" description.

Definition result_toast (result : OrderAssessmentResponse) : Toast :=
  if requires_approval result
  then mkToast toast_warning "Order requires approval"
               "Risk factors detected - manual review required"
  else mkToast toast_success "Order cleared"
               "No significant risk factors detected".

(** The part after [await fetch].  [clearInterval] is the statement
    behind the [await]: a rejected [fetch] jumps over it.  The [finally]
    clause resets [isChecking] and [checkStep] on every path. *)
Definition settle (o : FetchOutcome OrderAssessmentResponse) (s : Session)
  : Session * list Toast :=
  let p := page s in
  let timers := if fetch_resolved o then Nat.pred (intervals s) else intervals s in
  match try_block "Order pre-check failed" o with
  | inl result =>
      ({| page := mkState (formData p) false 0 (Some result); intervals := timers |},
       [result_toast result])
  | inr description =>
      ({| page := mkState (formData p) false 0 (assessment p); intervals := timers |},
       [error_toast description])
  end.

(** A whole run: the timer fires [ticks] times while the request is
    under way. *)
Definition handleCreateOrder (ticks : nat)
    (o : FetchOutcome OrderAssessmentResponse) (s : Session)
  : Session * list Toast :=
  settle o (Nat.iter ticks tick (begin s)).

End CreateOrder.

(** ** The scoring engine behind the routes *)

(** Modelled from the spec: the shared threshold mapping of section 4.4
    (a score of 70 or more is high, 30 to 69 medium, below 30 low).  The
    sources carry levels and scores side by side as data and hold no
    function from one to the other. *)
Definition levelOfScore (score : Z) : RiskLevel :=
  if 70 <=? score then high
  else if 30 <=? score then medium
  else low.

(** Score and level of a record agree, and the score is on the scale. *)
Definition score_level_consistent (score : Z) (level : RiskLevel) : Prop :=
  0 <= score <= 100 /\ level = levelOfScore score.

Module Engine.

Record EntityRiskProfile := mkProfile {
  riskLevel : RiskLevel;
  riskScore : Z;
  flags : list string;
  isBlacklisted : bool
}.

Record OrderAssessment := mkOrder {
  orderId : string;
  overallRiskLevel : RiskLevel;
  overallRiskScore : Z;
  requiresApproval : bool;
  approvalStatus : ApprovalStatus;
  shipperAssessment : EntityRiskProfile;
  buyerAssessment : EntityRiskProfile;
  orderFlags : list string
}.

(** Modelled from the spec: the points a list of news items earns in
    section 4.4, 8 for each negative item and 24 at most.  The resolver
    runs in the Python service, which the sources only call. *)
Definition negative_news_points (newsItems : list NewsItem) : Z :=
  Z.min 24 (8 * Z.of_nat (length (filter (fun n => sentiment n = negative) newsItems))).

(** Modelled from the spec: the additive score of section 4.4 before the
    cap: 50 for the tax list, 15 for a manufacturer that is not on the
    approved list, 10 for each other flag, and the news points. *)
Definition raw_score (entity : EntityProfile.t) (newsItems : list NewsItem) : Z :=
  let b := EntityProfile.blacklistStatus entity in
  (if list60B b then 50 else 0)
  + (if bool_decide (EntityProfile.type entity = manufacturer)
        && negb (approvedManufacturer b) then 15 else 0)
  + 10 * Z.of_nat (length (otherFlags b))
  + negative_news_points newsItems.

Section Resolve.

(** The specification does not fix the texts of a profile's flags. *)
Variable profile_flags : EntityProfile.t -> list NewsItem -> list string.

(** Modelled from the spec: [resolve(entity, newsItems)] of section 4.4,
    the score capped at 100, the level by the shared thresholds, and
    [isBlacklisted] set by the tax list.  The resolver is part of the
    Python service, absent from the sources. *)
Definition resolve (entity : EntityProfile.t) (newsItems : list NewsItem)
  : EntityRiskProfile :=
  let score := Z.min 100 (raw_score entity newsItems) in
  {| riskLevel := levelOfScore score;
     riskScore := score;
     flags := profile_flags entity newsItems;
     isBlacklisted := list60B (EntityProfile.blacklistStatus entity) |}.

End Resolve.

(** Modelled from the spec: the creation rule of section 4.6.  The order
    clears by itself when the overall level is low, neither party is
    blacklisted and the anomaly detector raised nothing. *)
Definition clears_automatically (level : RiskLevel)
    (shipperProfile buyerProfile : EntityRiskProfile)
    (anomalyFlags : list string) : bool :=
  bool_decide (level = low)
  && negb (isBlacklisted shipperProfile)
  && negb (isBlacklisted buyerProfile)
  && bool_decide (anomalyFlags = []).

(** Modelled from the spec: [createOrder] of section 4.6, on the two
    resolved profiles and the anomaly flags of the order: the overall
    score is the larger profile score, the level comes from the shared
    thresholds, and the flags are listed anomaly first as in section
    4.5.  It runs in the Python service behind [/api/orders/create];
    the sources hold the route and the shape of the answer only. *)
Definition createOrder (order_id : string)
    (shipperProfile buyerProfile : EntityRiskProfile)
    (anomalyFlags : list string) : OrderAssessment :=
  let score := Z.max (riskScore shipperProfile) (riskScore buyerProfile) in
  let level := levelOfScore score in
  let auto := clears_automatically level shipperProfile buyerProfile anomalyFlags in
  {| orderId := order_id;
     overallRiskLevel := level;
     overallRiskScore := score;
     requiresApproval := negb auto;
     approvalStatus := if auto then auto_approved else pending_approval;
     shipperAssessment := shipperProfile;
     buyerAssessment := buyerProfile;
     orderFlags := (anomalyFlags ++ flags shipperProfile ++ flags buyerProfile)%list |}.

End Engine.

(** ** Vocabulary of the properties *)

(** [contains needle hay]: [needle] occurs in [hay]. *)
Fixpoint contains (needle hay : string) : bool :=
  match hay with
  | EmptyString => String.prefix needle EmptyString
  | String _ rest => String.prefix needle hay || contains needle rest
  end.

Definition mentions (word flag : string) : bool :=
  contains (Js.toLowerCase word) (Js.toLowerCase flag).

(** A flag that reports a commodity whose origin is not the expected one. *)
Definition origin_mismatch_flag (flag : string) : bool :=
  mentions "origin mismatch" flag || mentions "origin anomaly" flag.

(** A flag that reports an entry on the tax blacklist (the 60B list). *)
Definition tax_blacklist_flag (flag : string) : bool :=
  mentions "60B" flag || mentions "blacklist" flag || mentions "tax" flag.

(** The four required fields of an assessment request. *)
Definition required_fields : list string :=
  ["shipper"; "importer"; "commodity"; "origin"].

(** A field is missing when the request does not carry it. *)
Definition missing_required_field (shipmentData : gmap string string) : Prop :=
  exists f, f ∈ required_fields /\ shipmentData !! f = None.

(** Two code units that are the capital and the small form of one
    letter. *)
Definition case_pair (c d : ascii) : Prop :=
  let n := nat_of_ascii c in
  ((65 <= n <= 90)%nat \/ ((192 <= n <= 222)%nat /\ n <> 215%nat))
  /\ nat_of_ascii d = (n + 32)%nat.

(** Two strings that differ in the case of their letters at most. *)
Inductive case_variant : string -> string -> Prop :=
  | case_variant_nil : case_variant EmptyString EmptyString
  | case_variant_same c s t :
      case_variant s t -> case_variant (String c s) (String c t)
  | case_variant_lower c d s t :
      case_pair c d -> case_variant s t ->
      case_variant (String c s) (String d t)
  | case_variant_upper c d s t :
      case_pair c d -> case_variant s t ->
      case_variant (String d s) (String c t).

(** A request as an object literal. *)
Definition request (fields : list (string * string)) : gmap string string :=
  list_to_map fields.

(** ** Named inputs and auxiliary notions *)

(** The last code unit of a string, if it has one. *)
Fixpoint last_unit (s : string) : option ascii :=
  match s with
  | EmptyString => None
  | String c EmptyString => Some c
  | String _ r => last_unit r
  end.

Definition soccer_china_request : gmap string string :=
  request [("shipper", "Global Trade Corp"); ("importer", "Mexico Imports SA");
           ("commodity", "Soccer Balls"); ("origin", "China")].

Definition soccer_pakistan_request : gmap string string :=
  request [("shipper", "Global Trade Corp"); ("importer", "Mexico Imports SA");
           ("commodity", "Soccer Balls"); ("origin", "Pakistan")].

Definition rapid_shift_request : gmap string string :=
  request [("shipper", "Rapid Shift Logistics"); ("importer", "Juguetes Mexico");
           ("commodity", "Toys"); ("origin", "Vietnam")].

Definition request_without_commodity : gmap string string :=
  request [("shipper", "Global Trade Corp"); ("importer", "Mexico Imports SA");
           ("origin", "China")].


(** What the testing guide of the repository expects of the assessment
    of a shipment whose shipper is on the 60B list (its high risk
    scenario): [High risk, multiple flags including 60B list]. *)
Definition guide_expects_60B_alert (a : Assessment.t) : Prop :=
  Assessment.riskLevel a = high
  /\ (2 <= length (Assessment.flags a))%nat
  /\ Exists (fun f => tax_blacklist_flag f = true) (Assessment.flags a).

Definition clean_profile : Engine.EntityRiskProfile :=
  Engine.resolve (fun _ _ => []) ENT_003 (EntityProfile.newsItems ENT_003).

Definition rapid_shift_profile : Engine.EntityRiskProfile :=
  Engine.resolve (fun _ _ => []) ENT_002 (EntityProfile.newsItems ENT_002).

Definition approved_order : CreateOrder.OrderAssessmentResponse :=
  let party n c t :=
    CreateOrder.mkSummary n c t low 15 false [] None in
  {| CreateOrder.order_id := "ORD-1";
     CreateOrder.overall_risk_level := medium;
     CreateOrder.overall_risk_score := 45;
     CreateOrder.requires_approval := true;
     CreateOrder.approval_status := approved;
     CreateOrder.shipper_assessment := party "Pacific Logistics Ltd" "Japan" "shipper";
     CreateOrder.buyer_assessment := party "Automotive Parts MX" "Mexico" "importer";
     CreateOrder.order_flags := ["Origin Anomaly - Expected Nigeria"];
     CreateOrder.recommendations := [];
     CreateOrder.ai_summary := "" |}.

Definition approved_order_page : CreateOrder.PageState :=
  {| CreateOrder.formData := CreateOrder.mkForm "" "" "" "Mexico" "" "" "" "";
     CreateOrder.isChecking := false;
     CreateOrder.checkStep := 0;
     CreateOrder.assessment := Some approved_order |}.

(** ** The page [ShipmentHistory] *)

(** [hay.includes(needle)]. *)
Definition includes (hay needle : string) : bool := contains needle hay.

(** The levels and states as the string literals of the source. *)
Definition risk_name (l : RiskLevel) : string :=
  match l with high => "high" | medium => "medium" | low => "low" end.

Definition status_name (s : ShipmentStatus) : string :=
  match s with
  | pending => "pending"
  | approved_shipment => "approved"
  | rejected_shipment => "rejected"
  | under_review => "under_review"
  end.

Module ShipmentHistory.

Definition matchesSearch (searchTerm : string) (shipment : ShipmentRecord.t) : bool :=
  String.eqb searchTerm ""
  || includes (Js.toLowerCase (ShipmentRecord.id shipment)) (Js.toLowerCase searchTerm)
  || includes (Js.toLowerCase (ShipmentRecord.shipper shipment)) (Js.toLowerCase searchTerm)
  || includes (Js.toLowerCase (ShipmentRecord.importer shipment)) (Js.toLowerCase searchTerm)
  || includes (Js.toLowerCase (ShipmentRecord.commodity shipment)) (Js.toLowerCase searchTerm).

Definition matchesRisk (riskFilter : string) (shipment : ShipmentRecord.t) : bool :=
  String.eqb riskFilter "all"
  || String.eqb (risk_name (ShipmentRecord.riskLevel shipment)) riskFilter.

Definition matchesStatus (statusFilter : string) (shipment : ShipmentRecord.t) : bool :=
  String.eqb statusFilter "all"
  || String.eqb (status_name (ShipmentRecord.status shipment)) statusFilter.

(** The callback of [mockShipments.filter], over any list of records. *)
Definition shown (searchTerm riskFilter statusFilter : string)
    (shipment : ShipmentRecord.t) : bool :=
  matchesSearch searchTerm shipment
  && matchesRisk riskFilter shipment
  && matchesStatus statusFilter shipment.

Definition filterShipments (shipments : list ShipmentRecord.t)
    (searchTerm riskFilter statusFilter : string) : list ShipmentRecord.t :=
  List.filter (shown searchTerm riskFilter statusFilter) shipments.

Definition filteredShipments (searchTerm riskFilter statusFilter : string)
  : list ShipmentRecord.t :=
  filterShipments mockShipments searchTerm riskFilter statusFilter.

End ShipmentHistory.

(** ** The page [Dashboard.tsx] *)

Module Dashboard.

(** [shipments.filter(s => s.riskLevel === 'high' || s.riskLevel ===
    'medium').slice(0, 5)]. *)
Definition alerts_of (shipments : list ShipmentRecord.t) : list ShipmentRecord.t :=
  take 5 (List.filter
            (fun s => String.eqb (risk_name (ShipmentRecord.riskLevel s)) "high"
                      || String.eqb (risk_name (ShipmentRecord.riskLevel s)) "medium")
            shipments).

Definition recentAlerts : list ShipmentRecord.t := alerts_of mockShipments.

End Dashboard.

(** ** The page [EntityIntelligence.tsx] *)

Module EntityIntelligence.

Record EntityResearchData := mkResearch {
  name : string;
  type : string;
  country : option string;
  riskLevel : RiskLevel;
  riskScore : Z;
  blacklistStatus : BlacklistStatus;
  newsItems : list NewsItem;
  tradingPatterns : list TradingPattern
}.

Record PageState := mkState {
  searchTerm : string;
  selectedEntity : option EntityProfile.t;
  researchData : option EntityResearchData;
  isResearching : bool
}.

Definition matches (term : string) (e : EntityProfile.t) : bool :=
  includes (Js.toLowerCase (EntityProfile.name e)) (Js.toLowerCase term)
  || includes (Js.toLowerCase (EntityProfile.country e)) (Js.toLowerCase term).

(** [searchTerm ? entities.filter(..) : entities]. *)
Definition filterEntities (entities : list EntityProfile.t) (term : string)
  : list EntityProfile.t :=
  if Js.truthy term then List.filter (matches term) entities else entities.

Definition filteredEntities (st : PageState) : list EntityProfile.t :=
  filterEntities mockEntities (searchTerm st).

(** What the detail pane shows: the research data or the stored
    profile. *)
Inductive Displayed :=
  | research_shown (r : EntityResearchData)
  | profile_shown (e : EntityProfile.t).

(** [selectedEntity ? (researchData || selectedEntity) : null]. *)
Definition displayEntity (st : PageState) : option Displayed :=
  match selectedEntity st with
  | Some e =>
      Some (match researchData st with
            | Some r => research_shown r
            | None => profile_shown e
            end)
  | None => None
  end.

(** The click on an entry of the list: [setSelectedEntity(entity)]. *)
Definition select (entity : EntityProfile.t) (st : PageState) : PageState :=
  mkState (searchTerm st) (Some entity) (researchData st) (isResearching st).

(** [handleResearchEntity], before and after its [await fetch]. *)
Definition begin (st : PageState) : PageState :=
  mkState (searchTerm st) (selectedEntity st) (researchData st) true.

Definition settle (entity : EntityProfile.t)
    (o : FetchOutcome EntityResearchData) (st : PageState)
  : PageState * list CreateOrder.Toast :=
  match try_block "Research failed" o with
  | inl data =>
      (mkState (searchTerm st) (selectedEntity st) (Some data) false,
       [CreateOrder.mkToast CreateOrder.toast_success "Entity research completed"
          ("Updated intelligence for " +:+ EntityProfile.name entity)])
  | inr description =>
      (mkState (searchTerm st) (selectedEntity st) (researchData st) false,
       [CreateOrder.mkToast CreateOrder.toast_error "Failed to research entity"
          description])
  end.

Definition handleResearchEntity (entity : EntityProfile.t)
    (o : FetchOutcome EntityResearchData) (st : PageState)
  : PageState * list CreateOrder.Toast :=
  settle entity o (begin st).

End EntityIntelligence.

(** ** Edits of a form *)

(** The value that the last edit of [field] wrote, if the field was
    edited. *)
Definition last_edit (field : string) (edits : list (string * string))
  : option string :=
  foldl (fun acc e => if String.eqb (fst e) field then Some (snd e) else acc)
        None edits.

(** A white space code unit occurs in the string. *)
Fixpoint has_space (s : string) : bool :=
  match s with
  | EmptyString => false
  | String c r => Js.is_space c || has_space r
  end.

(** The string is not empty and holds white space only. *)
Fixpoint white_run (s : string) : bool :=
  match s with
  | EmptyString => false
  | String c EmptyString => Js.is_space c
  | String c r => Js.is_space c && white_run r
  end.

(** The state of the scan of [Js.replace_runs] after a string. *)
Fixpoint run_state (b : bool) (s : string) : bool :=
  match s with
  | EmptyString => b
  | String c r => run_state (Js.is_space c) r
  end.


(** The form object after a series of edits, each a call
    [change field value] of the page's [handleInputChange]. *)
Definition edit_form
    (change : string -> string -> gmap string string -> gmap string string)
    (start : gmap string string) (edits : list (string * string))
  : gmap string string :=
  foldl (fun o e => change (fst e) (snd e) o) start edits.

(** Named inputs of the pages. *)
Definition rapid_shift_research : EntityIntelligence.EntityResearchData :=
  {| EntityIntelligence.name := "Rapid Shift Logistics";
     EntityIntelligence.type := "shipper";
     EntityIntelligence.country := Some "Panama";
     EntityIntelligence.riskLevel := high;
     EntityIntelligence.riskScore := 92;
     EntityIntelligence.blacklistStatus := EntityProfile.blacklistStatus ENT_002;
     EntityIntelligence.newsItems := EntityProfile.newsItems ENT_002;
     EntityIntelligence.tradingPatterns := EntityProfile.tradingPatterns ENT_002 |}.

Definition empty_pane : EntityIntelligence.PageState :=
  EntityIntelligence.mkState "" None None false.

(** * Properties *)

(** ** The lookup of [generateAIAssessment] *)

Lemma responses_default : responses !! "default" = Some default_response.
Proof. reflexivity. Qed.

(** Only one key selects the first entry; every other key, the key
    [default] included, ends at the second. *)
Lemma generateAIAssessment_cases (shipmentData : gmap string string) :
  generateAIAssessment shipmentData =
    if decide (key shipmentData = "soccer-balls-china")
    then soccer_balls_china else default_response.
Proof.
  unfold generateAIAssessment, responses.
  case_decide as Hk.
  - rewrite Hk. reflexivity.
  - rewrite lookup_insert_ne by congruence.
    destruct (decide (key shipmentData = "default")) as [Hd | Hd].
    + rewrite Hd. reflexivity.
    + rewrite lookup_singleton_ne by congruence. reflexivity.
Qed.

Lemma generateAIAssessment_range (shipmentData : gmap string string) :
  generateAIAssessment shipmentData = soccer_balls_china
  \/ generateAIAssessment shipmentData = default_response.
Proof. rewrite generateAIAssessment_cases. case_decide; auto. Qed.

Lemma key_of_fields (shipmentData : gmap string string) (c o : string) :
  shipmentData !! "commodity" = Some c ->
  shipmentData !! "origin" = Some o ->
  key shipmentData =
    Js.replace_whitespace_with_hyphen (Js.toLowerCase c) +:+ "-" +:+ Js.toLowerCase o.
Proof.
  intros Hc Ho. unfold key, commodity_part, origin_part.
  rewrite Hc, Ho. reflexivity.
Qed.

(** The key reads two fields of the request and nothing else. *)
Lemma key_reads_commodity_and_origin (d1 d2 : gmap string string) :
  d1 !! "commodity" = d2 !! "commodity" ->
  d1 !! "origin" = d2 !! "origin" ->
  key d1 = key d2.
Proof.
  intros Hc Ho. unfold key, commodity_part, origin_part.
  rewrite Hc, Ho. reflexivity.
Qed.

(** ** Strings *)

Lemma last_unit_append (s : string) (c : ascii) (t : string) :
  last_unit (s +:+ String c t) = last_unit (String c t).
Proof.
  induction s as [| a s IH]; [reflexivity |].
  change (String a s +:+ String c t) with (String a (s +:+ String c t)).
  cbn [last_unit]. rewrite IH.
  destruct s; reflexivity.
Qed.

Lemma is_upper_code_spec (n : nat) :
  Js.is_upper_code n = true <->
  ((65 <= n <= 90)%nat \/ ((192 <= n <= 222)%nat /\ n <> 215%nat)).
Proof.
  unfold Js.is_upper_code.
  rewrite orb_true_iff, !andb_true_iff, negb_true_iff, !Nat.leb_le, Nat.eqb_neq.
  lia.
Qed.

Lemma toLowerChar_case_pair (c d : ascii) :
  case_pair c d -> Js.toLowerChar c = Js.toLowerChar d.
Proof.
  intros [Hup Hd]. unfold Js.toLowerChar, Js.lower_code.
  rewrite (proj2 (is_upper_code_spec _) Hup).
  destruct (Js.is_upper_code (nat_of_ascii d)) eqn:E.
  - apply is_upper_code_spec in E. lia.
  - rewrite Hd. reflexivity.
Qed.

Lemma toLowerCase_case_variant (s t : string) :
  case_variant s t -> Js.toLowerCase s = Js.toLowerCase t.
Proof.
  induction 1 as [| c s t _ IH | c d s t Hp _ IH | c d s t Hp _ IH]; simpl.
  - reflexivity.
  - rewrite IH. reflexivity.
  - rewrite IH, (toLowerChar_case_pair _ _ Hp). reflexivity.
  - rewrite IH, (toLowerChar_case_pair _ _ Hp). reflexivity.
Qed.

Lemma case_variant_refl (s : string) : case_variant s s.
Proof. induction s; constructor; assumption. Qed.

Lemma case_variant_sym (s t : string) : case_variant s t -> case_variant t s.
Proof. induction 1; econstructor; eassumption. Qed.

(** ** Assessments *)

(** C2.  A request for commodity Soccer Balls with origin China is
    answered with level high and a flag that reports an origin mismatch
    and names Pakistan; with origin Pakistan no flag of the answer
    reports an origin mismatch.  The other fields of the request do not
    matter. *)
Theorem soccer_balls_origin_rule (shipmentData : gmap string string) :
  shipmentData !! "commodity" = Some "Soccer Balls" ->
  (shipmentData !! "origin" = Some "China" ->
     Assessment.riskLevel (generateAIAssessment shipmentData) = high
     /\ Exists (fun f => origin_mismatch_flag f = true /\ mentions "Pakistan" f = true)
               (Assessment.flags (generateAIAssessment shipmentData)))
  /\ (shipmentData !! "origin" = Some "Pakistan" ->
     Forall (fun f => origin_mismatch_flag f = false)
            (Assessment.flags (generateAIAssessment shipmentData))).
Proof.
  intros Hc. split; intros Ho.
  - rewrite generateAIAssessment_cases, (key_of_fields _ _ _ Hc Ho).
    change (Js.replace_whitespace_with_hyphen (Js.toLowerCase "Soccer Balls")
            +:+ "-" +:+ Js.toLowerCase "China") with "soccer-balls-china".
    rewrite decide_True by reflexivity.
    split; [reflexivity |].
    apply Exists_cons_hd. split; reflexivity.
  - rewrite generateAIAssessment_cases, (key_of_fields _ _ _ Hc Ho).
    change (Js.replace_whitespace_with_hyphen (Js.toLowerCase "Soccer Balls")
            +:+ "-" +:+ Js.toLowerCase "Pakistan") with "soccer-balls-pakistan".
    rewrite decide_False by discriminate.
    repeat constructor.
Qed.

Lemma soccer_balls_origin_rule_witness :
  (Assessment.riskLevel (generateAIAssessment soccer_china_request) = high
   /\ Exists (fun f => origin_mismatch_flag f = true /\ mentions "Pakistan" f = true)
             (Assessment.flags (generateAIAssessment soccer_china_request)))
  /\ Forall (fun f => origin_mismatch_flag f = false)
            (Assessment.flags (generateAIAssessment soccer_pakistan_request)).
Proof.
  split.
  - apply (soccer_balls_origin_rule soccer_china_request); reflexivity.
  - apply (soccer_balls_origin_rule soccer_pakistan_request); reflexivity.
Defined.

(** C3.  Every assessment that [generateAIAssessment] returns has a
    score between 0 and 100 and the level the thresholds give that
    score: high from 70 on, medium from 30 to 69, low below 30; so 70 is
    high, 69 and 30 are medium, 29 is low. *)
Theorem assessment_score_and_level :
  (forall shipmentData : gmap string string,
      0 <= Assessment.riskScore (generateAIAssessment shipmentData) <= 100
      /\ Assessment.riskLevel (generateAIAssessment shipmentData)
         = levelOfScore (Assessment.riskScore (generateAIAssessment shipmentData)))
  /\ (forall s : Z,
         (70 <= s -> levelOfScore s = high)
         /\ (30 <= s < 70 -> levelOfScore s = medium)
         /\ (s < 30 -> levelOfScore s = low))
  /\ levelOfScore 70 = high /\ levelOfScore 69 = medium
  /\ levelOfScore 30 = medium /\ levelOfScore 29 = low.
Proof.
  split; [| split; [| repeat split; reflexivity]].
  - intros d. destruct (generateAIAssessment_range d) as [-> | ->];
      (split; [simpl; lia | reflexivity]).
  - intros s. unfold levelOfScore.
    destruct (Z.leb_spec 70 s), (Z.leb_spec 30 s); repeat split; intros; try reflexivity; lia.
Qed.

(** C10.  Every record of [mockShipments] and of [mockEntities] has a
    score between 0 and 100 and the level the thresholds give it. *)
Theorem datasets_score_level_consistent :
  Forall (fun r => score_level_consistent (ShipmentRecord.riskScore r)
                                          (ShipmentRecord.riskLevel r))
         mockShipments
  /\ Forall (fun e => score_level_consistent (EntityProfile.riskScore e)
                                             (EntityProfile.riskLevel e))
            mockEntities.
Proof.
  unfold score_level_consistent, mockShipments, mockEntities.
  split;
    repeat (constructor; [split; [simpl; lia | reflexivity] |]);
    constructor.
Qed.

(** ** Two calls of [generateAIAssessment] *)

(** A call returns a reference that did not exist before, to an object
    equal to the value of the pure reading, and leaves the objects of
    the caller as they were. *)
Lemma generateAIAssessment_call_spec
    (h : gmap nat Assessment.t) (d : gmap string string) :
  result_heap (generateAIAssessment_call h d) !! result_ref (generateAIAssessment_call h d)
    = Some (generateAIAssessment d)
  /\ (result_ref (generateAIAssessment_call h d) ∉ dom h)
  /\ (forall l, l ∈ dom h ->
        result_heap (generateAIAssessment_call h d) !! l = h !! l).
Proof.
  unfold result_heap, result_ref, generateAIAssessment_call, allocate.
  set (l1 := fresh (dom h)).
  set (h1 := <[l1 := soccer_balls_china]> h).
  set (l2 := fresh (dom h1)).
  assert (Hl1 : l1 ∉ dom h) by apply is_fresh.
  assert (Hl2 : l2 ∉ dom h1) by apply is_fresh.
  unfold h1 in Hl2. rewrite dom_insert_L in Hl2.
  assert (Hne : l2 <> l1) by set_solver.
  assert (Hl2h : l2 ∉ dom h) by set_solver.
  assert (Hother : forall l, l ∈ dom h ->
            <[l2 := default_response]> h1 !! l = h !! l).
  { intros l Hl. unfold h1.
    rewrite !lookup_insert_ne by (intros ->; contradiction). reflexivity. }
  rewrite generateAIAssessment_cases.
  destruct (decide (key d = "soccer-balls-china")) as [Hk | Hk].
  - rewrite Hk, lookup_insert_eq. cbn [fst snd].
    split; [| split; assumption].
    rewrite lookup_insert_ne by assumption. apply lookup_insert_eq.
  - rewrite lookup_insert_ne by congruence.
    destruct (decide (key d = "default")) as [Hd | Hd].
    + rewrite Hd, lookup_singleton_eq. cbn [fst snd].
      split; [apply lookup_insert_eq | split; assumption].
    + rewrite lookup_singleton_ne by congruence.
      rewrite lookup_insert_ne by discriminate.
      rewrite lookup_singleton_eq. cbn [fst snd default].
      split; [apply lookup_insert_eq | split; assumption].
Qed.

(** C8.  Two calls of [generateAIAssessment] on the same request return
    equal assessments, whatever the caller did to the objects of earlier
    calls in between: the score, the list of flags and the list of
    recommendations are the same, item for item.  Each call hands out a
    new object, so an earlier result is never the result of a later
    call. *)
Theorem generateAIAssessment_deterministic
    (shipmentData : gmap string string) (h1 h2 : gmap nat Assessment.t) :
  exists a1 a2 : Assessment.t,
    result_heap (generateAIAssessment_call h1 shipmentData)
      !! result_ref (generateAIAssessment_call h1 shipmentData) = Some a1
    /\ result_heap (generateAIAssessment_call h2 shipmentData)
      !! result_ref (generateAIAssessment_call h2 shipmentData) = Some a2
    /\ a1 = a2
    /\ a1 = generateAIAssessment shipmentData
    /\ Assessment.riskScore a1 = Assessment.riskScore a2
    /\ Assessment.flags a1 = Assessment.flags a2
    /\ Assessment.recommendations a1 = Assessment.recommendations a2
    /\ (result_ref (generateAIAssessment_call h1 shipmentData) ∉ dom h1)
    /\ (result_ref (generateAIAssessment_call h2 shipmentData) ∉ dom h2).
Proof.
  destruct (generateAIAssessment_call_spec h1 shipmentData) as (E1 & F1 & _).
  destruct (generateAIAssessment_call_spec h2 shipmentData) as (E2 & F2 & _).
  exists (generateAIAssessment shipmentData), (generateAIAssessment shipmentData).
  repeat split; assumption.
Qed.

(** ** Case of commodity and origin *)

(** C9.  Writing the commodity or the origin of a request (or both) in
    another case does not change the assessment. *)
Theorem assessment_ignores_case
    (shipmentData : gmap string string) (c c' o o' : string) :
  case_variant c c' ->
  case_variant o o' ->
  generateAIAssessment (<["commodity" := c']> (<["origin" := o']> shipmentData))
  = generateAIAssessment (<["commodity" := c]> (<["origin" := o]> shipmentData)).
Proof.
  intros Hc Ho.
  rewrite !generateAIAssessment_cases.
  rewrite (key_of_fields _ c' o'), (key_of_fields _ c o);
    try (apply lookup_insert_eq);
    try (rewrite lookup_insert_ne by discriminate; apply lookup_insert_eq).
  rewrite (toLowerCase_case_variant _ _ Hc), (toLowerCase_case_variant _ _ Ho).
  reflexivity.
Qed.

Lemma assessment_ignores_case_witness :
  generateAIAssessment (<["commodity" := "SOCCER balls"]> (<["origin" := "cHINA"]> ∅))
  = generateAIAssessment (<["commodity" := "Soccer Balls"]> (<["origin" := "China"]> ∅)).
Proof.
  apply (assessment_ignores_case ∅ "Soccer Balls" "SOCCER balls" "China" "cHINA");
    repeat first
      [ apply case_variant_nil
      | apply case_variant_same
      | apply case_variant_lower; [unfold case_pair; vm_compute; lia |]
      | apply case_variant_upper; [unfold case_pair; vm_compute; lia |] ].
Defined.

(** ** Requests with missing fields *)

Lemma key_without_commodity (d : gmap string string) :
  d !! "commodity" = None -> key d <> "soccer-balls-china".
Proof.
  intros Hc. unfold key, commodity_part. rewrite Hc. discriminate.
Qed.

Lemma key_without_origin (d : gmap string string) :
  d !! "origin" = None -> key d <> "soccer-balls-china".
Proof.
  intros Ho E. apply (f_equal last_unit) in E.
  unfold key, origin_part in E. rewrite Ho in E.
  change ("-" +:+ Js.template_part (Js.toLowerCase <$> None))
    with (String "-"%char "undefined") in E.
  rewrite last_unit_append in E. discriminate.
Qed.

(** The form lets a request through only with its four required fields
    filled in. *)
Lemma form_gate (f : NewAssessment.FormData) (isAnalyzing : bool) :
  NewAssessment.shipper f = "" \/ NewAssessment.importer f = ""
  \/ NewAssessment.commodity f = "" \/ NewAssessment.origin f = "" ->
  NewAssessment.isFormValid f = false
  /\ NewAssessment.assess_disabled f isAnalyzing = true.
Proof.
  intros H.
  assert (Hv : NewAssessment.isFormValid f = false).
  { unfold NewAssessment.isFormValid.
    destruct H as [-> | [-> | [-> | ->]]]; simpl;
      rewrite ?andb_false_r; reflexivity. }
  split; [exact Hv |].
  unfold NewAssessment.assess_disabled. rewrite Hv. reflexivity.
Qed.


(** C1, as the code has it.  A request that lacks one of the four
    required fields is still assessed: [generateAIAssessment] returns
    normally with one of its two entries, and with the default entry
    (medium, 45) whenever the commodity or the origin is the missing
    field.  Empty required fields are stopped by the form, whose
    [isFormValid] is then false and whose button is disabled. *)
Theorem missing_field_still_assessed (shipmentData : gmap string string) :
  missing_required_field shipmentData ->
  (exists a : Assessment.t,
      generateAIAssessment_completion shipmentData = Returned a
      /\ (a = soccer_balls_china \/ a = default_response))
  /\ (shipmentData !! "commodity" = None \/ shipmentData !! "origin" = None ->
      generateAIAssessment shipmentData = default_response)
  /\ (forall (f : NewAssessment.FormData) (isAnalyzing : bool),
        NewAssessment.shipper f = "" \/ NewAssessment.importer f = ""
        \/ NewAssessment.commodity f = "" \/ NewAssessment.origin f = "" ->
        NewAssessment.isFormValid f = false
        /\ NewAssessment.assess_disabled f isAnalyzing = true).
Proof.
  intros _. split; [| split].
  - exists (generateAIAssessment shipmentData).
    split; [reflexivity | apply generateAIAssessment_range].
  - intros H. rewrite generateAIAssessment_cases.
    apply decide_False.
    destruct H; [apply key_without_commodity | apply key_without_origin]; assumption.
  - apply form_gate.
Qed.

Lemma request_without_commodity_missing :
  missing_required_field request_without_commodity.
Proof.
  exists "commodity". split; [| reflexivity].
  unfold required_fields. set_solver.
Qed.

Lemma missing_field_still_assessed_witness :
  missing_required_field request_without_commodity
  /\ generateAIAssessment request_without_commodity = default_response.
Proof.
  assert (H : missing_required_field request_without_commodity).
  { exists "commodity". split; [| reflexivity].
    unfold required_fields. set_solver. }
  split; [exact H |].
  apply (missing_field_still_assessed request_without_commodity H).
  left. reflexivity.
Defined.

(** C1, as stated, fails: the request without a commodity is answered
    with the default assessment and its score of 45, not with a
    [ValidationError]. *)
Lemma missing_field_counterexample :
  missing_required_field request_without_commodity
  /\ generateAIAssessment_completion request_without_commodity
     = Returned default_response
  /\ generateAIAssessment_completion request_without_commodity
     <> Thrown "ValidationError"
  /\ Assessment.riskScore (generateAIAssessment request_without_commodity) = 45.
Proof.
  split; [exact request_without_commodity_missing |].
  split; [reflexivity |]. split; [discriminate | reflexivity].
Qed.

(** ** The Rapid Shift request *)



(** At the Rapid Shift request itself the assessment has no flag that
    reports a tax blacklist entry. *)
Lemma rapid_shift_counterexample :
  ~ Exists (fun f => tax_blacklist_flag f = true)
           (Assessment.flags (generateAIAssessment rapid_shift_request)).
Proof.
  intros H. apply Exists_exists in H. destruct H as (f & Hin & Hf).
  change (Assessment.flags (generateAIAssessment rapid_shift_request))
    with ["Standard commodity routing"; "All parties cleared in basic checks"] in Hin.
  apply list_elem_of_In in Hin.
  destruct Hin as [<- | [<- | []]]; discriminate Hf.
Qed.

(** The testing guide expects high risk and several flags, the 60B list
    among them, for this request; the assessment that the code returns
    is medium and has no such flag, while the stored record of the
    shipment has one. *)
Lemma rapid_shift_guide_expectation_unmet :
  ~ guide_expects_60B_alert (generateAIAssessment rapid_shift_request)
  /\ Assessment.riskLevel (generateAIAssessment rapid_shift_request) = medium
  /\ Assessment.flags (generateAIAssessment rapid_shift_request)
     = ["Standard commodity routing"; "All parties cleared in basic checks"]
  /\ Exists (fun f => tax_blacklist_flag f = true) (ShipmentRecord.flags SHP_2024_006).
Proof.
  split; [intros (Hlevel & _); discriminate Hlevel |].
  split; [reflexivity |]. split; [reflexivity |].
  apply Exists_cons_hd. reflexivity.
Qed.

(** ** Entity profiles and order creation *)

Lemma negative_news_points_range (newsItems : list NewsItem) :
  0 <= Engine.negative_news_points newsItems <= 24.
Proof. unfold Engine.negative_news_points. lia. Qed.

Lemma raw_score_nonneg (entity : EntityProfile.t) (newsItems : list NewsItem) :
  0 <= Engine.raw_score entity newsItems.
Proof.
  pose proof (negative_news_points_range newsItems).
  unfold Engine.raw_score.
  destruct (list60B _), (bool_decide _ && negb _); lia.
Qed.

Lemma resolve_score_level (profile_flags : EntityProfile.t -> list NewsItem -> list string)
    (entity : EntityProfile.t) (newsItems : list NewsItem) :
  score_level_consistent
    (Engine.riskScore (Engine.resolve profile_flags entity newsItems))
    (Engine.riskLevel (Engine.resolve profile_flags entity newsItems)).
Proof.
  pose proof (raw_score_nonneg entity newsItems).
  unfold score_level_consistent. simpl. split; [lia | reflexivity].
Qed.

(** C7.  Resolving an entity that is on the tax list gives a profile
    with [isBlacklisted] set and a score of 50 at least (and 100 at
    most), whatever its other attributes and news. *)
Theorem tax_list_entity_profile
    (profile_flags : EntityProfile.t -> list NewsItem -> list string)
    (entity : EntityProfile.t) (newsItems : list NewsItem) :
  list60B (EntityProfile.blacklistStatus entity) = true ->
  Engine.isBlacklisted (Engine.resolve profile_flags entity newsItems) = true
  /\ 50 <= Engine.riskScore (Engine.resolve profile_flags entity newsItems) <= 100.
Proof.
  intros Htax.
  pose proof (negative_news_points_range newsItems).
  cbn [Engine.resolve Engine.isBlacklisted Engine.riskScore].
  split; [exact Htax |].
  unfold Engine.raw_score. rewrite Htax.
  destruct (bool_decide _ && negb _); lia.
Qed.

Lemma tax_list_entity_profile_witness :
  Engine.isBlacklisted
    (Engine.resolve (fun _ _ => []) ENT_002 (EntityProfile.newsItems ENT_002)) = true
  /\ 50 <= Engine.riskScore
             (Engine.resolve (fun _ _ => []) ENT_002 (EntityProfile.newsItems ENT_002))
        <= 100.
Proof.
  apply (tax_list_entity_profile (fun _ _ => []) ENT_002 (EntityProfile.newsItems ENT_002)).
  reflexivity.
Defined.

(** The stored profiles agree: the one entity of [mockEntities] on the
    tax list carries a score of 50 at least. *)
Lemma mockEntities_tax_list_scores :
  Forall (fun e => list60B (EntityProfile.blacklistStatus e) = true ->
                   50 <= EntityProfile.riskScore e)
         mockEntities.
Proof.
  unfold mockEntities.
  repeat (constructor; [simpl; intros; first [discriminate | lia] |]).
  constructor.
Qed.

Lemma levelOfScore_low (s : Z) : levelOfScore s = low <-> s < 30.
Proof.
  unfold levelOfScore.
  destruct (Z.leb_spec 70 s), (Z.leb_spec 30 s); split; intros; try discriminate;
    try reflexivity; lia.
Qed.

(** The overall level is low exactly when both profile scores are. *)
Lemma overall_level_low (order_id : string)
    (s b : Engine.EntityRiskProfile) (anomalyFlags : list string) :
  Engine.overallRiskLevel (Engine.createOrder order_id s b anomalyFlags) = low
  <-> Engine.riskScore s < 30 /\ Engine.riskScore b < 30.
Proof. simpl. rewrite levelOfScore_low. lia. Qed.

Lemma clears_automatically_spec (level : RiskLevel)
    (s b : Engine.EntityRiskProfile) (anomalyFlags : list string) :
  Engine.clears_automatically level s b anomalyFlags = true
  <-> level = low /\ Engine.isBlacklisted s = false
      /\ Engine.isBlacklisted b = false /\ anomalyFlags = [].
Proof.
  unfold Engine.clears_automatically.
  rewrite !andb_true_iff, !negb_true_iff, !bool_decide_eq_true. tauto.
Qed.

(** C5.  At order creation: when the overall level is low, neither
    party is blacklisted and there is no anomaly flag, the order is
    [auto_approved] and needs no approval; in every other case, and so
    whenever a party is blacklisted, it is [pending_approval] and needs
    approval. *)
Theorem order_creation_policy (order_id : string)
    (shipperProfile buyerProfile : Engine.EntityRiskProfile)
    (anomalyFlags : list string) :
  let o := Engine.createOrder order_id shipperProfile buyerProfile anomalyFlags in
  (Engine.overallRiskLevel o = low
   /\ Engine.isBlacklisted shipperProfile = false
   /\ Engine.isBlacklisted buyerProfile = false
   /\ anomalyFlags = [] ->
   Engine.approvalStatus o = auto_approved /\ Engine.requiresApproval o = false)
  /\ (~ (Engine.overallRiskLevel o = low
         /\ Engine.isBlacklisted shipperProfile = false
         /\ Engine.isBlacklisted buyerProfile = false
         /\ anomalyFlags = []) ->
      Engine.approvalStatus o = pending_approval /\ Engine.requiresApproval o = true)
  /\ (Engine.isBlacklisted shipperProfile = true
      \/ Engine.isBlacklisted buyerProfile = true ->
      Engine.approvalStatus o = pending_approval /\ Engine.requiresApproval o = true).
Proof.
  intros o.
  assert (Hyes : Engine.overallRiskLevel o = low
                 /\ Engine.isBlacklisted shipperProfile = false
                 /\ Engine.isBlacklisted buyerProfile = false
                 /\ anomalyFlags = [] ->
                 Engine.approvalStatus o = auto_approved
                 /\ Engine.requiresApproval o = false).
  { intros H. apply clears_automatically_spec in H.
    subst o. cbn [Engine.createOrder Engine.approvalStatus Engine.requiresApproval].
    cbn [Engine.createOrder Engine.overallRiskLevel] in H.
    rewrite H. split; reflexivity. }
  assert (Hno : ~ (Engine.overallRiskLevel o = low
                   /\ Engine.isBlacklisted shipperProfile = false
                   /\ Engine.isBlacklisted buyerProfile = false
                   /\ anomalyFlags = []) ->
                Engine.approvalStatus o = pending_approval
                /\ Engine.requiresApproval o = true).
  { intros H. rewrite <- clears_automatically_spec in H.
    apply not_true_is_false in H.
    subst o. cbn [Engine.createOrder Engine.approvalStatus Engine.requiresApproval].
    cbn [Engine.createOrder Engine.overallRiskLevel] in H.
    rewrite H. split; reflexivity. }
  split; [exact Hyes |]. split; [exact Hno |].
  intros Hb. apply Hno. intros (_ & Hs & Hbuyer & _).
  destruct Hb; congruence.
Qed.

Lemma order_creation_policy_witness :
  (Engine.approvalStatus (Engine.createOrder "ORD-1" clean_profile clean_profile [])
   = auto_approved
   /\ Engine.requiresApproval (Engine.createOrder "ORD-1" clean_profile clean_profile [])
      = false)
  /\ (Engine.approvalStatus
        (Engine.createOrder "ORD-2" rapid_shift_profile clean_profile [])
      = pending_approval
      /\ Engine.requiresApproval
           (Engine.createOrder "ORD-2" rapid_shift_profile clean_profile [])
         = true).
Proof.
  split.
  - apply (order_creation_policy "ORD-1" clean_profile clean_profile []).
    repeat split; reflexivity.
  - apply (order_creation_policy "ORD-2" rapid_shift_profile clean_profile []).
    left. reflexivity.
Defined.

(** ** The approval buttons *)

(** C6, as the code has it.  The approve, reject and escalate handlers
    return normally in every state of the page, leave that state (the
    order and its [approval_status] included) as it is, and emit one
    notification.  The buttons that run them are on the page exactly
    when an order is shown whose [requires_approval] is set. *)
Theorem approval_handlers_keep_state (st : CreateOrder.PageState) :
  CreateOrder.handleApprove st
  = Returned (tt, st,
              [CreateOrder.mkToast CreateOrder.toast_success "Order approved"
                 "Order has been approved and can proceed"])
  /\ CreateOrder.handleReject st
     = Returned (tt, st,
                 [CreateOrder.mkToast CreateOrder.toast_error "Order rejected"
                    "Order has been rejected"])
  /\ CreateOrder.handleEscalate st
     = Returned (tt, st,
                 [CreateOrder.mkToast CreateOrder.toast_info "Escalated to Legal"
                    "Order has been sent to legal department for review"])
  /\ (CreateOrder.approval_actions_rendered st = true
      <-> exists a, CreateOrder.assessment st = Some a
                    /\ CreateOrder.requires_approval a = true).
Proof.
  repeat split; try reflexivity.
  - unfold CreateOrder.approval_actions_rendered.
    destruct (CreateOrder.assessment st) as [a |]; [eauto | discriminate].
  - intros (a & Ha & Hr). unfold CreateOrder.approval_actions_rendered.
    rewrite Ha. exact Hr.
Qed.

(** C6, as stated, fails: on an order that is already [approved] the
    approve button is on the page and its handler returns normally,
    announcing success, where the specification asks for an
    [InvalidTransitionError]. *)
Lemma approval_handlers_counterexample :
  CreateOrder.approval_status approved_order = approved
  /\ CreateOrder.approval_actions_rendered approved_order_page = true
  /\ CreateOrder.handleApprove approved_order_page
     <> Thrown "InvalidTransitionError"
  /\ CreateOrder.handleReject approved_order_page
     <> Thrown "InvalidTransitionError"
  /\ exists out, CreateOrder.handleApprove approved_order_page
                 = Returned (tt, approved_order_page, out).
Proof.
  split; [reflexivity |]. split; [reflexivity |].
  split; [discriminate |]. split; [discriminate |].
  eexists. reflexivity.
Qed.

(** ** Further facts *)

(** A route adds no check of its own: what the service answers is what
    the caller gets. *)
Lemma proxy_route_forwards {Body Payload : Type} (failure_label : string)
    (service : Body -> UpstreamOutcome Payload) (body : Body) :
  match service body with
  | upstream_ok payload =>
      proxy_route failure_label service body = json_payload 200 payload
  | upstream_not_ok status errorText =>
      proxy_route failure_label service body
      = json_error status failure_label errorText
  | upstream_threw message =>
      proxy_route failure_label service body
      = json_error 500 "Failed to connect to AI service" message
  end.
Proof.
  unfold proxy_route. destruct (service body); reflexivity.
Qed.

(** A party that the resolver found on the tax list keeps the order out
    of the low level, so the level alone already withholds the automatic
    approval. *)
Lemma blacklisted_party_not_low
    (profile_flags : EntityProfile.t -> list NewsItem -> list string)
    (entity : EntityProfile.t) (newsItems : list NewsItem)
    (order_id : string) (buyerProfile : Engine.EntityRiskProfile)
    (anomalyFlags : list string) :
  list60B (EntityProfile.blacklistStatus entity) = true ->
  Engine.overallRiskLevel
    (Engine.createOrder order_id (Engine.resolve profile_flags entity newsItems)
       buyerProfile anomalyFlags) <> low.
Proof.
  intros Htax Hlow. apply overall_level_low in Hlow.
  pose proof (negative_news_points_range newsItems).
  cbn [Engine.resolve Engine.riskScore] in Hlow.
  unfold Engine.raw_score in Hlow. rewrite Htax in Hlow.
  destruct (bool_decide _ && negb _); lia.
Qed.

(** * Further properties of the code *)

(** ** Code units *)

Lemma lower_code_bounded (n : nat) : (n < 256 -> Js.lower_code n < 256)%nat.
Proof.
  intros Hn. unfold Js.lower_code.
  destruct (Js.is_upper_code n) eqn:E; [| exact Hn].
  apply is_upper_code_spec in E. lia.
Qed.

Lemma nat_of_toLowerChar (c : ascii) :
  nat_of_ascii (Js.toLowerChar c) = Js.lower_code (nat_of_ascii c).
Proof.
  unfold Js.toLowerChar. apply nat_ascii_embedding.
  apply lower_code_bounded, nat_ascii_bounded.
Qed.

Lemma is_space_code_spec (n : nat) :
  Js.is_space_code n = true <->
  ((9 <= n <= 13)%nat \/ n = 32%nat \/ n = 160%nat).
Proof.
  unfold Js.is_space_code.
  rewrite !orb_true_iff, andb_true_iff, !Nat.leb_le, !Nat.eqb_eq. lia.
Qed.

(** Lower case neither makes nor removes white space. *)
Lemma is_space_toLowerChar (c : ascii) :
  Js.is_space (Js.toLowerChar c) = Js.is_space c.
Proof.
  unfold Js.is_space. rewrite nat_of_toLowerChar.
  unfold Js.lower_code.
  destruct (Js.is_upper_code (nat_of_ascii c)) eqn:E; [| reflexivity].
  apply is_upper_code_spec in E.
  destruct (Js.is_space_code (nat_of_ascii c + 32)) eqn:E1,
           (Js.is_space_code (nat_of_ascii c)) eqn:E2; try reflexivity;
    try (apply is_space_code_spec in E1); try (apply is_space_code_spec in E2); lia.
Qed.

Lemma toLowerCase_app (s t : string) :
  Js.toLowerCase (s +:+ t) = Js.toLowerCase s +:+ Js.toLowerCase t.
Proof. induction s as [| c s IH]; simpl; [reflexivity | rewrite IH; reflexivity]. Qed.

Lemma has_space_app (s t : string) :
  has_space (s +:+ t) = has_space s || has_space t.
Proof.
  induction s as [| c s IH]; simpl; [reflexivity |].
  rewrite IH, orb_assoc. reflexivity.
Qed.

Lemma has_space_toLowerCase (s : string) :
  has_space (Js.toLowerCase s) = has_space s.
Proof.
  induction s as [| c s IH]; simpl; [reflexivity |].
  rewrite IH, is_space_toLowerChar. reflexivity.
Qed.

Lemma white_run_toLowerCase (w : string) :
  white_run (Js.toLowerCase w) = white_run w.
Proof.
  induction w as [| c w IH]; [reflexivity |].
  cbn [Js.toLowerCase white_run]. rewrite is_space_toLowerChar.
  destruct w as [| c' w]; [reflexivity |].
  cbn [Js.toLowerCase] in *. rewrite IH. reflexivity.
Qed.

(** ** The replacement of white space *)

Lemma replace_runs_no_space (b : bool) (s : string) :
  has_space (Js.replace_runs b s) = false.
Proof.
  revert b. induction s as [| c s IH]; intros b; simpl; [reflexivity |].
  destruct (Js.is_space c) eqn:E.
  - destruct b; simpl; rewrite ?IH; reflexivity.
  - simpl. rewrite E, IH. reflexivity.
Qed.

Lemma replace_runs_id (b : bool) (s : string) :
  has_space s = false -> Js.replace_runs b s = s.
Proof.
  revert b. induction s as [| c s IH]; intros b H; simpl in *; [reflexivity |].
  apply orb_false_elim in H as [Hc Hs].
  rewrite Hc, (IH false Hs). reflexivity.
Qed.

(** A run of white space in front: one hyphen, unless the hyphen of the
    run was written before. *)
Lemma replace_runs_white_run (b : bool) (w t : string) :
  white_run w = true ->
  Js.replace_runs b (w +:+ t)
  = (if b then "" else "-") +:+ Js.replace_runs true t.
Proof.
  revert b. induction w as [| c w IH]; intros b H; [discriminate |].
  destruct w as [| c' w].
  - cbn [white_run] in H. simpl. rewrite H. destruct b; reflexivity.
  - cbn [white_run] in H. apply andb_true_iff in H as [Hc Hw].
    change (String c (String c' w) +:+ t) with (String c (String c' w +:+ t)).
    cbn [Js.replace_runs]. rewrite Hc, (IH true Hw).
    destruct b; reflexivity.
Qed.

Lemma replace_runs_app (b : bool) (s t : string) :
  Js.replace_runs b (s +:+ t)
  = Js.replace_runs b s +:+ Js.replace_runs (run_state b s) t.
Proof.
  revert b. induction s as [| c s IH]; intros b; simpl; [reflexivity |].
  destruct (Js.is_space c); [destruct b |]; simpl; rewrite IH; reflexivity.
Qed.

(** X1.  The text that [replace(/\s+/g, '-')] returns holds no white
    space; a text without white space is returned as it is; so the
    replacement applied twice is the replacement applied once. *)
Theorem replace_whitespace_normal_form (s : string) :
  has_space (Js.replace_whitespace_with_hyphen s) = false
  /\ (has_space s = false -> Js.replace_whitespace_with_hyphen s = s)
  /\ Js.replace_whitespace_with_hyphen (Js.replace_whitespace_with_hyphen s)
     = Js.replace_whitespace_with_hyphen s.
Proof.
  unfold Js.replace_whitespace_with_hyphen.
  split; [apply replace_runs_no_space |].
  split; [apply replace_runs_id |].
  apply replace_runs_id, replace_runs_no_space.
Qed.

Lemma replace_whitespace_normal_form_witness :
  has_space "soccer-balls" = false
  /\ Js.replace_whitespace_with_hyphen "soccer-balls" = "soccer-balls".
Proof.
  split; [reflexivity |].
  exact (proj1 (proj2 (replace_whitespace_normal_form "soccer-balls")) eq_refl).
Defined.

(** Every run of white space counts the same. *)
Lemma replace_whitespace_runs_alike (s w1 w2 t : string) :
  white_run w1 = true ->
  white_run w2 = true ->
  Js.replace_whitespace_with_hyphen (s +:+ w1 +:+ t)
  = Js.replace_whitespace_with_hyphen (s +:+ w2 +:+ t).
Proof.
  intros H1 H2. unfold Js.replace_whitespace_with_hyphen.
  rewrite (replace_runs_app false s (w1 +:+ t)).
  rewrite (replace_runs_app false s (w2 +:+ t)).
  rewrite !replace_runs_white_run by assumption.
  reflexivity.
Qed.

(** ** What [generateAIAssessment] reads *)

Lemma contains_app_r (n s t : string) :
  contains n t = true -> contains n (s +:+ t) = true.
Proof.
  intros H. induction s as [| c s IH]; [exact H |].
  change (String c s +:+ t) with (String c (s +:+ t)).
  cbn [contains]. rewrite IH. apply orb_true_r.
Qed.

Lemma contains_at_head (c : ascii) (s : string) :
  contains (String c "") (String c s) = true.
Proof.
  cbn [contains]. apply orb_true_iff. left.
  cbn [String.prefix]. destruct (ascii_dec c c) as [_ | Hne]; [| congruence].
  destruct s; reflexivity.
Qed.

Lemma key_has_space (d : gmap string string) (o : string) :
  d !! "origin" = Some o -> has_space o = true -> has_space (key d) = true.
Proof.
  intros Ho Hs. unfold key, origin_part. rewrite Ho. cbn [fmap option_fmap option_map Js.template_part].
  rewrite !has_space_app, has_space_toLowerCase, Hs, !orb_true_r. reflexivity.
Qed.

(** The two places where the key of the first entry can be cut at a
    hyphen. *)
Lemma cut_at_hyphen (x y : string) :
  x +:+ "-" +:+ y = "soccer-balls-china" ->
  (x = "soccer" /\ y = "balls-china") \/ (x = "soccer-balls" /\ y = "china").
Proof.
  intros H.
  repeat (destruct x as [| ? x];
          cbv [String.append] in H; fold String.append in H;
          [ first [discriminate H
                  | injection H as ->;
                    solve [left; split; reflexivity | right; split; reflexivity]]
          | first [discriminate H | injection H as -> H] ]).
Qed.

(** X2.  [generateAIAssessment] reads the commodity and the origin of a
    request and nothing else: writing or removing any other field, the
    shipper and the importer among them, leaves the assessment as it
    was. *)
Theorem assessment_reads_two_fields
    (shipmentData : gmap string string) (field value : string) :
  field <> "commodity" ->
  field <> "origin" ->
  generateAIAssessment (<[field := value]> shipmentData)
  = generateAIAssessment shipmentData
  /\ generateAIAssessment (delete field shipmentData)
     = generateAIAssessment shipmentData.
Proof.
  intros Hc Ho. rewrite !generateAIAssessment_cases.
  rewrite (key_reads_commodity_and_origin (<[field := value]> shipmentData) shipmentData),
          (key_reads_commodity_and_origin (delete field shipmentData) shipmentData);
    try (apply lookup_insert_ne; assumption);
    try (apply lookup_delete_ne; assumption).
  split; reflexivity.
Qed.

Lemma assessment_reads_two_fields_witness :
  generateAIAssessment (<["shipper" := "Rapid Shift Logistics"]> soccer_china_request)
  = generateAIAssessment soccer_china_request
  /\ generateAIAssessment (delete "shipper" soccer_china_request)
     = generateAIAssessment soccer_china_request.
Proof.
  apply (assessment_reads_two_fields soccer_china_request "shipper"
           "Rapid Shift Logistics"); discriminate.
Defined.

(** X3.  The key that [generateAIAssessment] computes always holds a
    hyphen.  It is therefore never the key [default]: the table answers
    a lookup only with its first entry, and the default entry is
    reached through the fallback alone. *)
Theorem key_never_default (shipmentData : gmap string string) :
  includes (key shipmentData) "-" = true
  /\ key shipmentData <> "default"
  /\ (forall r, responses !! key shipmentData = Some r -> r = soccer_balls_china).
Proof.
  assert (Hh : includes (key shipmentData) "-" = true).
  { unfold includes, key. apply contains_app_r.
    change ("-" +:+ Js.template_part (origin_part shipmentData))
      with (String "-"%char (Js.template_part (origin_part shipmentData))).
    apply contains_at_head. }
  assert (Hd : key shipmentData <> "default").
  { intros E. rewrite E in Hh. discriminate Hh. }
  split; [exact Hh |]. split; [exact Hd |].
  intros r Hr. unfold responses in Hr.
  destruct (decide (key shipmentData = "soccer-balls-china")) as [Hk | Hk].
  - rewrite Hk in Hr. rewrite lookup_insert_eq in Hr. congruence.
  - rewrite lookup_insert_ne in Hr by congruence.
    rewrite lookup_singleton_ne in Hr by congruence. discriminate Hr.
Qed.

(** X4.  White space in the commodity is normalised: two requests whose
    commodities differ in one run of white space only (its length, or
    tabs for blanks) get the same assessment. *)
Theorem commodity_white_space_alike
    (shipmentData : gmap string string) (s w1 w2 t : string) :
  white_run w1 = true ->
  white_run w2 = true ->
  generateAIAssessment (<["commodity" := s +:+ w1 +:+ t]> shipmentData)
  = generateAIAssessment (<["commodity" := s +:+ w2 +:+ t]> shipmentData).
Proof.
  intros H1 H2. rewrite !generateAIAssessment_cases.
  assert (K : key (<["commodity" := s +:+ w1 +:+ t]> shipmentData)
              = key (<["commodity" := s +:+ w2 +:+ t]> shipmentData)).
  { unfold key, commodity_part, origin_part.
    rewrite !lookup_insert_eq, !lookup_insert_ne by discriminate.
    cbn [fmap option_fmap option_map Js.template_part].
    rewrite !toLowerCase_app.
    rewrite (replace_whitespace_runs_alike _ (Js.toLowerCase w1) (Js.toLowerCase w2))
      by (rewrite white_run_toLowerCase; assumption).
    reflexivity. }
  rewrite K. reflexivity.
Qed.

Lemma commodity_white_space_alike_witness :
  generateAIAssessment
    (<["commodity" := "Soccer" +:+ String (ascii_of_nat 9) "  " +:+ "Balls"]>
       soccer_china_request)
  = generateAIAssessment
      (<["commodity" := "Soccer" +:+ " " +:+ "Balls"]> soccer_china_request).
Proof.
  apply (commodity_white_space_alike soccer_china_request "Soccer"
           (String (ascii_of_nat 9) "  ") " " "Balls"); reflexivity.
Defined.

(** X5.  White space in the origin is not normalised: a request whose
    origin holds a white space code unit anywhere, a trailing blank for
    one, always gets the default assessment. *)
Theorem origin_white_space_defaults
    (shipmentData : gmap string string) (o : string) :
  shipmentData !! "origin" = Some o ->
  has_space o = true ->
  generateAIAssessment shipmentData = default_response.
Proof.
  intros Ho Hs. rewrite generateAIAssessment_cases.
  apply decide_False. intros E.
  pose proof (key_has_space _ _ Ho Hs) as Hk.
  rewrite E in Hk. discriminate Hk.
Qed.

Lemma origin_white_space_defaults_witness :
  generateAIAssessment (<["origin" := "China "]> soccer_china_request)
  = default_response.
Proof.
  apply (origin_white_space_defaults
           (<["origin" := "China "]> soccer_china_request) "China ");
    reflexivity.
Defined.

(** X6.  The first entry (high, 87) is returned in two cases and in no
    other: the normalised commodity is [soccer-balls] and the origin in
    lower case [china], or the normalised commodity is [soccer] and the
    origin in lower case [balls-china].  The key does not keep the
    border between its two parts. *)
Theorem high_entry_exactly (shipmentData : gmap string string) :
  generateAIAssessment shipmentData = soccer_balls_china
  <-> exists c o,
        shipmentData !! "commodity" = Some c
        /\ shipmentData !! "origin" = Some o
        /\ ((Js.replace_whitespace_with_hyphen (Js.toLowerCase c) = "soccer-balls"
             /\ Js.toLowerCase o = "china")
            \/ (Js.replace_whitespace_with_hyphen (Js.toLowerCase c) = "soccer"
                /\ Js.toLowerCase o = "balls-china")).
Proof.
  rewrite generateAIAssessment_cases. split.
  - case_decide as Hk; [| discriminate].
    intros _.
    destruct (shipmentData !! "commodity") as [c |] eqn:Hc;
      [| exfalso; exact (key_without_commodity _ Hc Hk)].
    destruct (shipmentData !! "origin") as [o |] eqn:Ho;
      [| exfalso; exact (key_without_origin _ Ho Hk)].
    exists c, o. split; [reflexivity |]. split; [reflexivity |].
    rewrite (key_of_fields _ _ _ Hc Ho) in Hk.
    apply cut_at_hyphen in Hk. tauto.
  - intros (c & o & Hc & Ho & H).
    rewrite (key_of_fields _ _ _ Hc Ho).
    destruct H as [[-> ->] | [-> ->]]; reflexivity.
Qed.

(** ** Lists under a boolean filter *)

Lemma filter_all (A : Type) (p : A -> bool) (l : list A) :
  (forall x, p x = true) -> List.filter p l = l.
Proof.
  intros H. induction l as [| x l IH]; simpl; [reflexivity |].
  rewrite H, IH. reflexivity.
Qed.

Lemma filter_none (A : Type) (p : A -> bool) (l : list A) :
  (forall x, p x = false) -> List.filter p l = [].
Proof.
  intros H. induction l as [| x l IH]; simpl; [reflexivity |].
  rewrite H. exact IH.
Qed.

Lemma filter_sublist_weaker (A : Type) (p q : A -> bool) (l : list A) :
  (forall x, p x = true -> q x = true) ->
  sublist (List.filter p l) (List.filter q l).
Proof.
  intros H. induction l as [| x l IH]; simpl; [constructor |].
  destruct (p x) eqn:Hp.
  - rewrite (H x Hp). constructor. exact IH.
  - destruct (q x); [constructor |]; exact IH.
Qed.

Lemma filter_sublist_self (A : Type) (p : A -> bool) (l : list A) :
  sublist (List.filter p l) l.
Proof.
  induction l as [| x l IH]; simpl; [constructor |].
  destruct (p x); constructor; exact IH.
Qed.

(** ** Search terms *)

Lemma prefix_app_l (a b h : string) :
  String.prefix (a +:+ b) h = true -> String.prefix a h = true.
Proof.
  revert h. induction a as [| c a IH]; intros h H.
  - destruct h; reflexivity.
  - destruct h as [| c' h]; [discriminate H |].
    change (String c a +:+ b) with (String c (a +:+ b)) in H.
    cbn [String.prefix] in *.
    destruct (ascii_dec c c'); [apply IH; exact H | discriminate H].
Qed.

Lemma contains_app_l (a b h : string) :
  contains (a +:+ b) h = true -> contains a h = true.
Proof.
  induction h as [| c h IH]; cbn [contains]; intros H.
  - apply (prefix_app_l a b). exact H.
  - apply orb_true_iff in H. apply orb_true_iff.
    destruct H as [H | H]; [left; apply (prefix_app_l a b); exact H | right; auto].
Qed.

Lemma case_variant_empty (s t : string) :
  case_variant s t -> String.eqb s "" = String.eqb t "".
Proof. destruct 1; reflexivity. Qed.

Lemma case_variant_truthy (s t : string) :
  case_variant s t -> Js.truthy s = Js.truthy t.
Proof. destruct 1; reflexivity. Qed.

Lemma matchesSearch_case (t t' : string) (s : ShipmentRecord.t) :
  case_variant t t' ->
  ShipmentHistory.matchesSearch t s = ShipmentHistory.matchesSearch t' s.
Proof.
  intros H. unfold ShipmentHistory.matchesSearch.
  rewrite (case_variant_empty _ _ H), (toLowerCase_case_variant _ _ H).
  reflexivity.
Qed.

Lemma matchesSearch_longer (t x : string) (s : ShipmentRecord.t) :
  ShipmentHistory.matchesSearch (t +:+ x) s = true ->
  ShipmentHistory.matchesSearch t s = true.
Proof.
  unfold ShipmentHistory.matchesSearch, includes.
  destruct t as [| c t]; [reflexivity |].
  rewrite toLowerCase_app.
  change (String.eqb (String c t +:+ x) "") with false.
  change (String.eqb (String c t) "") with false.
  rewrite !orb_false_l, !orb_true_iff.
  intros H. repeat destruct H as [H | H];
    apply contains_app_l in H; tauto.
Qed.

Lemma shown_by_risk (t r st : string) (s : ShipmentRecord.t) :
  ShipmentHistory.shown t r st s
  = ShipmentHistory.matchesSearch t s && ShipmentHistory.matchesStatus st s
    && ShipmentHistory.matchesRisk r s.
Proof.
  unfold ShipmentHistory.shown.
  destruct (ShipmentHistory.matchesSearch t s), (ShipmentHistory.matchesStatus st s),
           (ShipmentHistory.matchesRisk r s); reflexivity.
Qed.

(** ** The table of shipments *)

(** X7.  With the filters as the page starts them (no search term, risk
    [all], status [all]) the table shows every shipment.  Any other
    choice shows a part of that, in the same order: setting a filter
    back to [all], or deleting characters from the end of the search
    term, never removes a row. *)
Theorem shipment_filters_narrow
    (shipments : list ShipmentRecord.t) (t x r st : string) :
  ShipmentHistory.filterShipments shipments "" "all" "all" = shipments
  /\ sublist (ShipmentHistory.filterShipments shipments t r st)
             (ShipmentHistory.filterShipments shipments t "all" st)
  /\ sublist (ShipmentHistory.filterShipments shipments t r st)
             (ShipmentHistory.filterShipments shipments t r "all")
  /\ sublist (ShipmentHistory.filterShipments shipments (t +:+ x) r st)
             (ShipmentHistory.filterShipments shipments t r st)
  /\ sublist (ShipmentHistory.filterShipments shipments t r st) shipments.
Proof.
  unfold ShipmentHistory.filterShipments.
  split; [apply filter_all; reflexivity |].
  split; [| split; [| split]].
  - apply filter_sublist_weaker. intros s. unfold ShipmentHistory.shown.
    rewrite !andb_true_iff. intros [[H1 _] H3]. auto.
  - apply filter_sublist_weaker. intros s. unfold ShipmentHistory.shown.
    rewrite !andb_true_iff. intros [[H1 H2] _]. auto.
  - apply filter_sublist_weaker. intros s. unfold ShipmentHistory.shown.
    rewrite !andb_true_iff. intros [[H1 H2] H3].
    pose proof (matchesSearch_longer _ _ _ H1). auto.
  - apply filter_sublist_self.
Qed.

(** X8.  The three risk filters split the table: for any search term
    and status filter, the rows shown under [all] are the rows shown
    under [high], [medium] and [low] together, each row once. *)
Theorem risk_filters_partition
    (shipments : list ShipmentRecord.t) (t st : string) :
  ShipmentHistory.filterShipments shipments t "all" st
  ≡ₚ ShipmentHistory.filterShipments shipments t "high" st
     ++ ShipmentHistory.filterShipments shipments t "medium" st
     ++ ShipmentHistory.filterShipments shipments t "low" st.
Proof.
  unfold ShipmentHistory.filterShipments.
  induction shipments as [| s l IH]; [reflexivity |].
  cbn [List.filter]. rewrite !shown_by_risk.
  destruct (ShipmentHistory.matchesSearch t s && ShipmentHistory.matchesStatus st s);
    [| exact IH].
  unfold ShipmentHistory.matchesRisk.
  destruct (ShipmentRecord.riskLevel s); cbn.
  - rewrite IH. reflexivity.
  - rewrite IH. exact (Permutation_middle _ _ s).
  - rewrite IH, !app_assoc. exact (Permutation_middle _ _ s).
Qed.

(** X9.  The search of the shipment table ignores case: two terms that
    differ in the case of their letters only show the same rows. *)
Theorem shipment_search_ignores_case
    (shipments : list ShipmentRecord.t) (t t' r st : string) :
  case_variant t t' ->
  ShipmentHistory.filterShipments shipments t r st
  = ShipmentHistory.filterShipments shipments t' r st.
Proof.
  intros H. unfold ShipmentHistory.filterShipments.
  apply filter_ext. intros s. unfold ShipmentHistory.shown.
  rewrite (matchesSearch_case _ _ s H). reflexivity.
Qed.

Lemma shipment_search_ignores_case_witness :
  ShipmentHistory.filteredShipments "rapid" "all" "all"
  = ShipmentHistory.filteredShipments "RaPiD" "all" "all".
Proof.
  apply (shipment_search_ignores_case mockShipments "rapid" "RaPiD" "all" "all").
  repeat first
    [ apply case_variant_nil
    | apply case_variant_same
    | apply case_variant_lower; [unfold case_pair; vm_compute; lia |]
    | apply case_variant_upper; [unfold case_pair; vm_compute; lia |] ].
Defined.

(** X10.  A risk filter other than [all], [high], [medium] and [low]
    shows no row, and so does a status filter other than [all],
    [pending], [approved], [rejected] and [under_review]; the filter
    values are compared as they are, in their case. *)
Theorem unknown_filter_shows_nothing
    (shipments : list ShipmentRecord.t) (t r st : string) :
  (r ∉ ["all"; "high"; "medium"; "low"]
   \/ st ∉ ["all"; "pending"; "approved"; "rejected"; "under_review"]) ->
  ShipmentHistory.filterShipments shipments t r st = [].
Proof.
  intros H. unfold ShipmentHistory.filterShipments.
  apply filter_none. intros s. unfold ShipmentHistory.shown.
  destruct H as [H | H].
  - assert (E : ShipmentHistory.matchesRisk r s = false).
    { unfold ShipmentHistory.matchesRisk.
      apply orb_false_intro; apply String.eqb_neq; intros E; apply H.
      - subst r. set_solver.
      - subst r. destruct (ShipmentRecord.riskLevel s); set_solver. }
    rewrite E, andb_false_r. reflexivity.
  - assert (E : ShipmentHistory.matchesStatus st s = false).
    { unfold ShipmentHistory.matchesStatus.
      apply orb_false_intro; apply String.eqb_neq; intros E; apply H.
      - subst st. set_solver.
      - subst st. destruct (ShipmentRecord.status s); set_solver. }
    rewrite E, andb_false_r. reflexivity.
Qed.

Lemma unknown_filter_shows_nothing_witness :
  ShipmentHistory.filteredShipments "" "High" "all" = [].
Proof.
  apply (unknown_filter_shows_nothing mockShipments "" "High" "all").
  left. intros H. apply list_elem_of_In in H. simpl in H.
  repeat destruct H as [H | H]; try discriminate H. exact H.
Defined.

(** ** The alerts of the dashboard *)

Lemma alert_level (s : ShipmentRecord.t) :
  String.eqb (risk_name (ShipmentRecord.riskLevel s)) "high"
  || String.eqb (risk_name (ShipmentRecord.riskLevel s)) "medium" = true
  <-> ShipmentRecord.riskLevel s <> low.
Proof. destruct (ShipmentRecord.riskLevel s); cbn; split; congruence. Qed.

(** X11.  The dashboard lists at most five alerts, none of them low, in
    the order of the data; and it lists every shipment that is not low
    unless five are listed already. *)
Theorem recent_alerts_bounded (shipments : list ShipmentRecord.t) :
  (length (Dashboard.alerts_of shipments) <= 5)%nat
  /\ Forall (fun s => ShipmentRecord.riskLevel s <> low) (Dashboard.alerts_of shipments)
  /\ sublist (Dashboard.alerts_of shipments) shipments
  /\ ((length (Dashboard.alerts_of shipments) < 5)%nat ->
      forall s, In s shipments -> ShipmentRecord.riskLevel s <> low ->
                In s (Dashboard.alerts_of shipments)).
Proof.
  unfold Dashboard.alerts_of.
  set (p := fun s : ShipmentRecord.t =>
              String.eqb (risk_name (ShipmentRecord.riskLevel s)) "high"
              || String.eqb (risk_name (ShipmentRecord.riskLevel s)) "medium").
  split; [rewrite length_take; lia |].
  split.
  { apply Forall_take. apply List.Forall_forall. intros s Hs.
    apply filter_In in Hs as [_ Hs]. apply alert_level. exact Hs. }
  split.
  { transitivity (List.filter p shipments);
      [apply sublist_take | apply filter_sublist_self]. }
  intros Hlt s Hin Hlvl.
  rewrite take_ge by (rewrite length_take in Hlt; lia).
  apply filter_In. split; [exact Hin | apply alert_level; exact Hlvl].
Qed.

(** ** The entity pane *)

(** X12.  Research data, once fetched, stays on the pane: it is shown
    for the entity that was researched and for every entity selected
    afterwards, also after a research of that other entity has failed.
    Selecting an entity does not clear it. *)
Theorem research_outlives_selection
    (st : EntityIntelligence.PageState) (a b : EntityProfile.t)
    (data : EntityIntelligence.EntityResearchData)
    (o : FetchOutcome EntityIntelligence.EntityResearchData) (description : string) :
  try_block "Research failed" o = inr description ->
  let st1 := fst (EntityIntelligence.handleResearchEntity a (response_ok (parsed data))
                    (EntityIntelligence.select a st)) in
  EntityIntelligence.displayEntity st1
  = Some (EntityIntelligence.research_shown data)
  /\ EntityIntelligence.displayEntity (EntityIntelligence.select b st1)
     = Some (EntityIntelligence.research_shown data)
  /\ EntityIntelligence.displayEntity
       (fst (EntityIntelligence.handleResearchEntity b o
               (EntityIntelligence.select b st1)))
     = Some (EntityIntelligence.research_shown data).
Proof.
  intros Ho st1. split; [reflexivity |]. split; [reflexivity |].
  unfold EntityIntelligence.handleResearchEntity, EntityIntelligence.settle.
  rewrite Ho. reflexivity.
Qed.

Lemma research_outlives_selection_witness :
  EntityIntelligence.displayEntity
    (EntityIntelligence.select ENT_003
       (fst (EntityIntelligence.handleResearchEntity ENT_002
               (response_ok (parsed rapid_shift_research))
               (EntityIntelligence.select ENT_002 empty_pane))))
  = Some (EntityIntelligence.research_shown rapid_shift_research).
Proof.
  apply (research_outlives_selection empty_pane ENT_002 ENT_003 rapid_shift_research
           (fetch_rejected None) "Unknown error occurred").
  reflexivity.
Defined.

(** X13.  The entity search shows every entity for the empty term,
    ignores the case of the term, and never shows anything but a part
    of the list, in its order. *)
Theorem entity_search (entities : list EntityProfile.t) (t t' : string) :
  case_variant t t' ->
  EntityIntelligence.filterEntities entities "" = entities
  /\ EntityIntelligence.filterEntities entities t
     = EntityIntelligence.filterEntities entities t'
  /\ sublist (EntityIntelligence.filterEntities entities t) entities.
Proof.
  intros H. split; [reflexivity |]. split.
  - unfold EntityIntelligence.filterEntities.
    rewrite (case_variant_truthy _ _ H).
    destruct (Js.truthy t'); [| reflexivity].
    apply filter_ext. intros e. unfold EntityIntelligence.matches.
    rewrite (toLowerCase_case_variant _ _ H). reflexivity.
  - unfold EntityIntelligence.filterEntities.
    destruct (Js.truthy t); [apply filter_sublist_self | reflexivity].
Qed.

Lemma entity_search_witness :
  EntityIntelligence.filterEntities mockEntities "japan"
  = EntityIntelligence.filterEntities mockEntities "JAPAN".
Proof.
  apply (entity_search mockEntities "japan" "JAPAN").
  repeat first
    [ apply case_variant_nil
    | apply case_variant_same
    | apply case_variant_lower; [unfold case_pair; vm_compute; lia |]
    | apply case_variant_upper; [unfold case_pair; vm_compute; lia |] ].
Defined.

(** ** A run of the order pre-check *)

Lemma tick_iter (s : CreateOrder.Session) (k : nat) :
  (0 < CreateOrder.intervals s)%nat ->
  CreateOrder.checkStep (CreateOrder.page s) <= 3 ->
  Nat.iter k CreateOrder.tick s
  = {| CreateOrder.page :=
         CreateOrder.mkState
           (CreateOrder.formData (CreateOrder.page s))
           (CreateOrder.isChecking (CreateOrder.page s))
           (if k is O then CreateOrder.checkStep (CreateOrder.page s)
            else Z.min (CreateOrder.checkStep (CreateOrder.page s) + Z.of_nat k) 3)
           (CreateOrder.assessment (CreateOrder.page s));
       CreateOrder.intervals := CreateOrder.intervals s |}.
Proof.
  intros Hi Hc. induction k as [| k IH].
  - destruct s as [[? ? ? ?] ?]. reflexivity.
  - rewrite Nat.iter_succ, IH. unfold CreateOrder.tick.
    cbn [CreateOrder.intervals CreateOrder.page CreateOrder.formData
         CreateOrder.isChecking CreateOrder.checkStep CreateOrder.assessment].
    destruct (CreateOrder.intervals s) as [| m]; [lia |].
    f_equal. f_equal. destruct k; lia.
Qed.

Lemma tick_idle (s : CreateOrder.Session) (k : nat) :
  CreateOrder.intervals s = O -> Nat.iter k CreateOrder.tick s = s.
Proof.
  intros Hi. induction k as [| k IH]; [reflexivity |].
  rewrite Nat.iter_succ, IH. unfold CreateOrder.tick. rewrite Hi. reflexivity.
Qed.

Lemma result_toast_kind (result : CreateOrder.OrderAssessmentResponse) :
  CreateOrder.kind (CreateOrder.result_toast result) = CreateOrder.toast_warning
  <-> CreateOrder.requires_approval result = true.
Proof.
  unfold CreateOrder.result_toast.
  destruct (CreateOrder.requires_approval result); cbn; split; congruence.
Qed.

Lemma ticks_after_begin (s : CreateOrder.Session) (n : nat) :
  CreateOrder.page (Nat.iter n CreateOrder.tick (CreateOrder.begin s))
  = CreateOrder.mkState (CreateOrder.formData (CreateOrder.page s)) true
      (Z.min (1 + Z.of_nat n) 3) None
  /\ 1 <= CreateOrder.checkStep
            (CreateOrder.page (Nat.iter n CreateOrder.tick (CreateOrder.begin s))) <= 3.
Proof.
  rewrite tick_iter by (cbn; lia).
  cbn [CreateOrder.page CreateOrder.begin CreateOrder.formData
       CreateOrder.isChecking CreateOrder.checkStep CreateOrder.assessment].
  split; [f_equal |]; destruct n; lia.
Qed.

(** X14.  While the pre-check is under way the step indicator starts at
    1, goes up by one with every firing of the timer and stops at 3;
    the page stays busy and shows no assessment. *)
Theorem check_step_progress (s : CreateOrder.Session) (n : nat) :
  CreateOrder.page (Nat.iter n CreateOrder.tick (CreateOrder.begin s))
  = CreateOrder.mkState (CreateOrder.formData (CreateOrder.page s)) true
      (Z.min (1 + Z.of_nat n) 3) None
  /\ 1 <= CreateOrder.checkStep
            (CreateOrder.page (Nat.iter n CreateOrder.tick (CreateOrder.begin s))) <= 3.
Proof. exact (ticks_after_begin s n). Qed.

Lemma run_outcome
    (n : nat) (o : FetchOutcome CreateOrder.OrderAssessmentResponse)
    (s : CreateOrder.Session) :
  let r := CreateOrder.handleCreateOrder n o s in
  CreateOrder.isChecking (CreateOrder.page (fst r)) = false
  /\ CreateOrder.checkStep (CreateOrder.page (fst r)) = 0
  /\ CreateOrder.formData (CreateOrder.page (fst r))
     = CreateOrder.formData (CreateOrder.page s)
  /\ match try_block "Order pre-check failed" o with
     | inl result =>
         CreateOrder.assessment (CreateOrder.page (fst r)) = Some result
         /\ snd r = [CreateOrder.result_toast result]
         /\ (CreateOrder.kind (CreateOrder.result_toast result) = CreateOrder.toast_warning
             <-> CreateOrder.requires_approval result = true)
         /\ CreateOrder.approval_actions_rendered (CreateOrder.page (fst r))
            = CreateOrder.requires_approval result
     | inr description =>
         CreateOrder.assessment (CreateOrder.page (fst r)) = None
         /\ snd r = [CreateOrder.error_toast description]
         /\ CreateOrder.approval_actions_rendered (CreateOrder.page (fst r)) = false
     end.
Proof.
  intros r. subst r. unfold CreateOrder.handleCreateOrder, CreateOrder.settle.
  pose proof (ticks_after_begin s n) as [Hp _].
  destruct (try_block "Order pre-check failed" o) as [result | description];
    cbn [fst snd CreateOrder.page CreateOrder.isChecking CreateOrder.checkStep
         CreateOrder.formData CreateOrder.assessment];
    rewrite Hp; cbn [CreateOrder.formData CreateOrder.assessment].
  - split; [reflexivity |]. split; [reflexivity |]. split; [reflexivity |].
    split; [reflexivity |]. split; [reflexivity |].
    split; [apply result_toast_kind | reflexivity].
  - repeat split; reflexivity.
Qed.

(** X15.  However a run of [handleCreateOrder] ends, the page is idle
    again with the step indicator at 0, the form untouched and one
    toast raised.  After a success the page holds the result, its toast
    is the warning exactly when the result requires approval, and that
    is exactly when the approval buttons appear.  After a failure the
    page holds no assessment, whatever it showed before the run. *)
Theorem pre_check_run_ends
    (n : nat) (o : FetchOutcome CreateOrder.OrderAssessmentResponse)
    (s : CreateOrder.Session) :
  let r := CreateOrder.handleCreateOrder n o s in
  CreateOrder.isChecking (CreateOrder.page (fst r)) = false
  /\ CreateOrder.checkStep (CreateOrder.page (fst r)) = 0
  /\ CreateOrder.formData (CreateOrder.page (fst r))
     = CreateOrder.formData (CreateOrder.page s)
  /\ match try_block "Order pre-check failed" o with
     | inl result =>
         CreateOrder.assessment (CreateOrder.page (fst r)) = Some result
         /\ snd r = [CreateOrder.result_toast result]
         /\ (CreateOrder.kind (CreateOrder.result_toast result) = CreateOrder.toast_warning
             <-> CreateOrder.requires_approval result = true)
         /\ CreateOrder.approval_actions_rendered (CreateOrder.page (fst r))
            = CreateOrder.requires_approval result
     | inr description =>
         CreateOrder.assessment (CreateOrder.page (fst r)) = None
         /\ snd r = [CreateOrder.error_toast description]
         /\ CreateOrder.approval_actions_rendered (CreateOrder.page (fst r)) = false
     end.
Proof. exact (run_outcome n o s). Qed.

(** X16.  The timer of a run is cleared when the request gets an
    answer, ok or not, and is left running when [fetch] itself rejects.
    After a rejected [fetch] the left timer keeps raising the step
    indicator of the idle page, up to 3; after an answered request,
    with no timer left from before, the indicator stays at 0. *)
Theorem pre_check_timer
    (n k : nat) (o : FetchOutcome CreateOrder.OrderAssessmentResponse)
    (s : CreateOrder.Session) :
  let s' := fst (CreateOrder.handleCreateOrder n o s) in
  CreateOrder.intervals s'
  = (if fetch_resolved o then CreateOrder.intervals s
     else S (CreateOrder.intervals s))
  /\ (fetch_resolved o = false ->
      CreateOrder.checkStep (CreateOrder.page (Nat.iter k CreateOrder.tick s'))
      = Z.min (Z.of_nat k) 3
      /\ CreateOrder.isChecking (CreateOrder.page (Nat.iter k CreateOrder.tick s'))
         = false)
  /\ (fetch_resolved o = true -> CreateOrder.intervals s = O ->
      Nat.iter k CreateOrder.tick s' = s').
Proof.
  intros s'.
  assert (Hi : CreateOrder.intervals s'
               = if fetch_resolved o then CreateOrder.intervals s
                 else S (CreateOrder.intervals s)).
  { subst s'. unfold CreateOrder.handleCreateOrder, CreateOrder.settle.
    rewrite tick_iter by (cbn; lia).
    destruct (try_block "Order pre-check failed" o), (fetch_resolved o); reflexivity. }
  pose proof (run_outcome n o s) as (Hc & Hs & _).
  cbn zeta in Hc, Hs. fold s' in Hc, Hs.
  split; [exact Hi |]. split.
  - intros Hr. rewrite Hr in Hi.
    rewrite tick_iter by (rewrite ?Hi, ?Hs; lia).
    cbn [CreateOrder.page CreateOrder.checkStep CreateOrder.isChecking].
    rewrite Hs, Hc. split; [destruct k; lia | reflexivity].
  - intros Hr H0. rewrite Hr, H0 in Hi. apply tick_idle. exact Hi.
Qed.

Lemma pre_check_timer_witness :
  let s0 := {| CreateOrder.page := approved_order_page; CreateOrder.intervals := O |} in
  CreateOrder.checkStep
    (CreateOrder.page
       (Nat.iter 2 CreateOrder.tick
          (fst (CreateOrder.handleCreateOrder 1 (fetch_rejected (Some "Failed to fetch")) s0))))
  = 2
  /\ Nat.iter 2 CreateOrder.tick
       (fst (CreateOrder.handleCreateOrder 1 (response_not_ok (parsed None)) s0))
     = fst (CreateOrder.handleCreateOrder 1 (response_not_ok (parsed None)) s0).
Proof.
  intros s0. split.
  - apply (pre_check_timer 1 2 (fetch_rejected (Some "Failed to fetch")) s0).
    reflexivity.
  - apply (pre_check_timer 1 2 (response_not_ok (parsed None)) s0); reflexivity.
Defined.

(** X17.  Through the route [/api/orders/create] the answer of the
    service reaches the page unchanged: a result of the service becomes
    the assessment of the page, and an error text of the service, or
    the message of a failed connection, becomes the text of the error
    toast (the fallback [Order pre-check failed] if it is empty). *)
Theorem service_answer_reaches_page {Body : Type}
    (service : Body -> UpstreamOutcome CreateOrder.OrderAssessmentResponse)
    (body : Body) (n : nat) (s : CreateOrder.Session) :
  (forall status text,
      service body = upstream_not_ok status text -> status_ok status = false) ->
  exists o,
    seen_by_page (orders_create_route service body) = Some o
    /\ match service body with
       | upstream_ok payload =>
           CreateOrder.assessment
             (CreateOrder.page (fst (CreateOrder.handleCreateOrder n o s)))
           = Some payload
           /\ snd (CreateOrder.handleCreateOrder n o s)
              = [CreateOrder.result_toast payload]
       | upstream_not_ok _ text | upstream_threw text =>
           CreateOrder.assessment
             (CreateOrder.page (fst (CreateOrder.handleCreateOrder n o s)))
           = None
           /\ snd (CreateOrder.handleCreateOrder n o s)
              = [CreateOrder.error_toast
                   (if Js.truthy text then text else "Order pre-check failed")]
       end.
Proof.
  intros Hst. unfold orders_create_route, proxy_route.
  destruct (service body) as [payload | status text | message] eqn:E.
  - eexists. split; [reflexivity |].
    pose proof (run_outcome n (response_ok (parsed payload)) s) as (_ & _ & _ & H).
    cbn [try_block] in H. destruct H as (H1 & H2 & _). auto.
  - cbn [seen_by_page]. rewrite (Hst status text eq_refl).
    eexists. split; [reflexivity |].
    pose proof (run_outcome n (response_not_ok (parsed (Some text))) s)
      as (_ & _ & _ & H).
    cbn [try_block] in H. destruct H as (H1 & H2 & _). auto.
  - eexists. split; [reflexivity |].
    pose proof (run_outcome n (response_not_ok (parsed (Some message))) s)
      as (_ & _ & _ & H).
    cbn [try_block] in H. destruct H as (H1 & H2 & _). auto.
Qed.

Lemma service_answer_reaches_page_witness :
  let s0 := {| CreateOrder.page := approved_order_page; CreateOrder.intervals := O |} in
  exists o,
    seen_by_page (orders_create_route
                    (fun _ : unit => upstream_not_ok 422 "buyer_name: field required") tt)
    = Some o
    /\ snd (CreateOrder.handleCreateOrder 0 o s0)
       = [CreateOrder.error_toast "buyer_name: field required"].
Proof.
  intros s0.
  destruct (service_answer_reaches_page
              (fun _ : unit => upstream_not_ok 422 "buyer_name: field required")
              tt 0 s0) as (o & Ho & _ & Ht).
  - intros status text E. injection E as <- <-. reflexivity.
  - exists o. split; [exact Ho | exact Ht].
Defined.

(** ** Forms *)

Lemma truthy_spec (s : string) : Js.truthy s = true <-> s <> "".
Proof. destruct s; cbn; split; congruence. Qed.

Lemma last_edit_snoc (k : string) (edits : list (string * string)) (e : string * string) :
  last_edit k (edits ++ [e])
  = if String.eqb (fst e) k then Some (snd e) else last_edit k edits.
Proof. unfold last_edit. rewrite foldl_app. reflexivity. Qed.

(** The last write of a field wins, and a field never written keeps
    its first value. *)
Lemma lookup_after_edits (start : gmap string string)
    (edits : list (string * string)) (k : string) :
  foldl (fun o e => <[fst e := snd e]> o) start edits !! k
  = match last_edit k edits with
    | Some v => Some v
    | None => start !! k
    end.
Proof.
  induction edits as [| e edits IH] using rev_ind; [reflexivity |].
  rewrite foldl_app, last_edit_snoc. cbn [foldl].
  destruct (String.eqb_spec (fst e) k) as [-> | Hne].
  - apply lookup_insert_eq.
  - rewrite lookup_insert_ne by exact Hne. exact IH.
Qed.

Lemma edited_field_filled (start : gmap string string)
    (edits : list (string * string)) (k : string) :
  start !! k = Some "" ->
  Js.truthy (default "" (foldl (fun o e => <[fst e := snd e]> o) start edits !! k)) = true
  <-> exists v, last_edit k edits = Some v /\ v <> "".
Proof.
  intros Hs. rewrite lookup_after_edits, truthy_spec.
  destruct (last_edit k edits) as [v |]; cbn.
  - split; [eauto | intros (w & [= <-] & Hw); exact Hw].
  - rewrite Hs. cbn. split; [congruence | intros (w & [=] & _)].
Qed.

(** X18.  On the assessment form the last edit of a field wins:
    after any series of edits, starting from the empty form, the form
    is valid exactly when each of shipper, importer, commodity and
    origin has been edited and its last edit left it non-empty.  Edits
    of the other fields do not count. *)
Theorem assessment_form_valid_after_edits (edits : list (string * string)) :
  NewAssessment.isFormValid
    (NewAssessment.form_of
       (edit_form NewAssessment.handleInputChange NewAssessment.initialFormData edits))
  = true
  <-> Forall (fun k => exists v, last_edit k edits = Some v /\ v <> "") required_fields.
Proof.
  unfold NewAssessment.isFormValid, NewAssessment.form_of, NewAssessment.read,
         edit_form, NewAssessment.handleInputChange, required_fields.
  cbn [NewAssessment.shipper NewAssessment.importer NewAssessment.commodity
       NewAssessment.origin].
  rewrite !andb_true_iff, !Forall_cons, Forall_nil.
  rewrite !edited_field_filled by reflexivity.
  tauto.
Qed.

(** X19.  On the order form, which starts with the country of the buyer
    filled in, the form is valid after a series of edits exactly when
    the name and country of the shipper, the name of the buyer, the
    commodity and the origin were each last edited to a non-empty text,
    and the country of the buyer was not last edited to the empty
    text. *)
Theorem order_form_valid_after_edits (edits : list (string * string)) :
  CreateOrder.isFormValid
    (CreateOrder.form_of
       (edit_form CreateOrder.handleInputChange CreateOrder.initialFormData edits))
  = true
  <-> Forall (fun k => exists v, last_edit k edits = Some v /\ v <> "")
             ["shipper_name"; "shipper_country"; "buyer_name"; "commodity"; "origin"]
      /\ last_edit "buyer_country" edits <> Some "".
Proof.
  unfold CreateOrder.isFormValid, CreateOrder.form_of, CreateOrder.read,
         edit_form, CreateOrder.handleInputChange.
  cbn [CreateOrder.shipper_name CreateOrder.shipper_country CreateOrder.buyer_name
       CreateOrder.buyer_country CreateOrder.commodity CreateOrder.origin].
  rewrite !andb_true_iff, !Forall_cons, Forall_nil.
  assert (Hb : Js.truthy
                 (default ""
                    (foldl (fun o e => <[fst e := snd e]> o)
                       CreateOrder.initialFormData edits !! "buyer_country")) = true
               <-> last_edit "buyer_country" edits <> Some "").
  { rewrite lookup_after_edits, truthy_spec.
    destruct (last_edit "buyer_country" edits) as [v |]; cbn.
    - split; congruence.
    - split; [discriminate | intros _; discriminate]. }
  rewrite Hb, !edited_field_filled by reflexivity. tauto.
Qed.

(** ** The body of an assessment request *)

Lemma lookup_with_property (Num : Type) (k k' : string)
    (v : option (NewAssessment.JsonValue Num))
    (o : gmap string (NewAssessment.JsonValue Num)) :
  NewAssessment.with_property Num k v o !! k'
  = if decide (k = k')
    then match v with Some x => Some x | None => o !! k' end
    else o !! k'.
Proof.
  unfold NewAssessment.with_property. destruct v as [x |].
  - rewrite lookup_insert. reflexivity.
  - case_decide; reflexivity.
Qed.

Lemma optional_string_some (Num : Type) (x : string) :
  is_Some (NewAssessment.optional_string Num x) <-> x <> "".
Proof.
  unfold NewAssessment.optional_string. rewrite <- truthy_spec.
  destruct (Js.truthy x); split; intros H; try reflexivity;
    try (eexists; reflexivity); try discriminate H; destruct H; discriminate.
Qed.

Lemma optional_number_some (Num : Type) (parseFloat : string -> Num) (x : string) :
  is_Some (NewAssessment.optional_number Num parseFloat x) <-> x <> "".
Proof.
  unfold NewAssessment.optional_number. rewrite <- truthy_spec.
  destruct (Js.truthy x); split; intros H; try reflexivity;
    try (eexists; reflexivity); try discriminate H; destruct H; discriminate.
Qed.

Lemma option_match_same (A : Type) (o : option A) :
  match o with Some x => Some x | None => None end = o.
Proof. destruct o; reflexivity. Qed.

Ltac body_lookup :=
  unfold NewAssessment.shipmentData;
  repeat (rewrite lookup_with_property;
          first [rewrite decide_True by reflexivity
                | rewrite decide_False by discriminate]);
  rewrite ?lookup_empty.

(** X20.  The body that [handleAssess] sends always carries the four
    required fields, as the strings of the form, so that it never lacks
    one; an optional field is in the body exactly when the form has a
    text for it; and the key that [generateAIAssessment] computes from
    the body is made of the commodity and the origin of the form. *)
Theorem request_body_fields (Num : Type) (parseFloat : string -> Num)
    (f : NewAssessment.FormData) :
  let body := NewAssessment.shipmentData Num parseFloat f in
  (body !! "shipper" = Some (NewAssessment.JString (NewAssessment.shipper f))
   /\ body !! "importer" = Some (NewAssessment.JString (NewAssessment.importer f))
   /\ body !! "commodity" = Some (NewAssessment.JString (NewAssessment.commodity f))
   /\ body !! "origin" = Some (NewAssessment.JString (NewAssessment.origin f)))
  /\ ~ missing_required_field (NewAssessment.string_fields Num body)
  /\ ((is_Some (body !! "manufacturer") <-> NewAssessment.manufacturer f <> "")
      /\ (is_Some (body !! "destination") <-> NewAssessment.destination f <> "")
      /\ (is_Some (body !! "value") <-> NewAssessment.value f <> "")
      /\ (is_Some (body !! "weight") <-> NewAssessment.weight f <> "")
      /\ (is_Some (body !! "hsCode") <-> NewAssessment.hsCode f <> "")
      /\ (is_Some (body !! "notes") <-> NewAssessment.notes f <> ""))
  /\ key (NewAssessment.string_fields Num body)
     = Js.replace_whitespace_with_hyphen (Js.toLowerCase (NewAssessment.commodity f))
       +:+ "-" +:+ Js.toLowerCase (NewAssessment.origin f).
Proof.
  intros body.
  assert (Hs : body !! "shipper" = Some (NewAssessment.JString (NewAssessment.shipper f)))
    by (subst body; body_lookup; reflexivity).
  assert (Hi : body !! "importer" = Some (NewAssessment.JString (NewAssessment.importer f)))
    by (subst body; body_lookup; reflexivity).
  assert (Hc : body !! "commodity" = Some (NewAssessment.JString (NewAssessment.commodity f)))
    by (subst body; body_lookup; reflexivity).
  assert (Ho : body !! "origin" = Some (NewAssessment.JString (NewAssessment.origin f)))
    by (subst body; body_lookup; reflexivity).
  split; [auto |]. split.
  { intros (k & Hk & Hnone). unfold NewAssessment.string_fields in Hnone.
    rewrite lookup_omap in Hnone. unfold required_fields in Hk.
    apply list_elem_of_In in Hk. simpl in Hk.
    destruct Hk as [<- | [<- | [<- | [<- | []]]]];
      rewrite ?Hs, ?Hi, ?Hc, ?Ho in Hnone; discriminate Hnone. }
  split.
  { subst body.
    repeat match goal with |- _ /\ _ => split end;
      body_lookup; rewrite option_match_same;
      first [apply optional_string_some | apply optional_number_some]. }
  apply key_of_fields; unfold NewAssessment.string_fields;
    rewrite lookup_omap, ?Hc, ?Ho; reflexivity.
Qed.
